(** * Dbg: a leveled debug/trace writer (aslib/dbg.py)

    A shallow embedding of the [Dbg] class of [aslib/dbg.py] and the
    properties of its recorder, filter, formatter, sink writer and
    trace helper.

    Python objects are modelled as follows.
    - An instance of [Dbg] is a record of the attributes that an
      instance can hold.  Every attribute is declared in the class body
      with an immutable default and is rebound on the instance by
      [__init__] or by a setter, so an instance value carries the
      resolved value of each of them.
    - [dmsgs] is the exception: the class body binds it once to a list,
      no method ever assigns [self.dmsgs], and [msg], [msgs] and [clr]
      mutate that one list in place.  It therefore lives in the shared
      store ([World]), not in the instance record.
    - Standard output, the log files, the clock and the ability to open
      a path are the environment; output is kept as the ordered trace
      of writes.
    - The interpreter's call stack, which the code inspects through
      [inspect.currentframe] and [sys._getframe], is a list of frames,
      innermost first.
    - Exceptions are an explicit outcome of a computation over the
      store. *)

From Stdlib Require Import ZArith List String Ascii Bool Lia.
From Stdlib Require Import DecimalString.
Import ListNotations.

Open Scope string_scope.
Open Scope Z_scope.

Module Dbg.

(** ** Exceptions and the store *)

Inductive exn : Type :=
| ValueError (what : string)
| AttributeError
| UnboundLocalError
| OSError (path : string).

Inductive outcome (A : Type) : Type :=
| Ret (a : A)
| Raise (e : exn).

Arguments Ret {A} a.
Arguments Raise {A} e.

(** One buffered message: the dict built by [msg]. *)
Record Msg : Type := mkMsg {
  m_lvl  : string;
  m_fnm  : string;
  m_func : string;
  m_ln   : Z;
  m_txt  : string;
  m_dlvl : Z;
  m_dpth : Z
}.

(** The effects the code has on its environment, in order. *)
Inductive Event : Type :=
| EvOpen (path : string)
| EvLog (path : string) (text : string)
| EvOut (text : string).

Record World : Type := mkWorld {
  dmsgs    : list Msg;           (* the class attribute Dbg.dmsgs *)
  trace    : list Event;         (* writes performed so far, oldest first *)
  clock    : string -> string;   (* datetime.now().strftime(fmt) *)
  can_open : string -> bool      (* whether open(path, 'a') succeeds *)
}.

Definition M (A : Type) : Type := World -> outcome A * World.

Definition ret {A} (a : A) : M A := fun w => (Ret a, w).

Definition raise {A} (e : exn) : M A := fun w => (Raise e, w).

Definition bind {A B} (m : M A) (k : A -> M B) : M B :=
  fun w =>
    match m w with
    | (Ret a, w') => k a w'
    | (Raise e, w') => (Raise e, w')
    end.

Notation "x <- m ;; k" := (bind m (fun x => k))
  (at level 61, m at next level, right associativity).
Notation "m ;;; k" := (bind m (fun _ => k))
  (at level 61, right associativity).

Definition emit_event (ev : Event) : M unit :=
  fun w => (Ret tt, mkWorld (dmsgs w) (trace w ++ [ev]) (clock w) (can_open w)).

Definition stdout_write (s : string) : M unit := emit_event (EvOut s).

(** [log_fp.write(s)] on a handle that is open and accepts the write.
    The store keeps no record of closed handles: a statement about an
    instance with a log file is about the time between the [open] and
    the [close] of [__exit__]. *)
Definition fp_write (fp : string) (s : string) : M unit := emit_event (EvLog fp s).

(** [datetime.datetime.now().strftime(fmt)].  A store holds one instant:
    two readings in one run give the same string, so a statement that
    compares log lines stamped by different readings is outside of what
    the store can tell. *)
Definition now_strftime (fmt : string) : M string :=
  fun w => (Ret (clock w fmt), w).

(** A path with a NUL character in it. *)
Fixpoint has_nul (s : string) : bool :=
  match s with
  | EmptyString => false
  | String c rest => if Ascii.eqb c "000" then true else has_nul rest
  end.

(** [open(path, 'a')]: ValueError for a path that holds a NUL
    character, OSError when the file cannot be opened. *)
Definition open_append (path : string) : M string :=
  fun w =>
    if has_nul path then (Raise (ValueError "embedded null byte"), w)
    else if can_open w path
    then (Ret path, mkWorld (dmsgs w) (trace w ++ [EvOpen path]) (clock w) (can_open w))
    else (Raise (OSError path), w).

Definition get_dmsgs : M (list Msg) := fun w => (Ret (dmsgs w), w).

Definition set_dmsgs (l : list Msg) : M unit :=
  fun w => (Ret tt, mkWorld l (trace w) (clock w) (can_open w)).

(** What reached each sink. *)
Fixpoint console_of (tr : list Event) : list string :=
  match tr with
  | [] => []
  | EvOut s :: tr' => s :: console_of tr'
  | _ :: tr' => console_of tr'
  end.

Fixpoint logged_of (tr : list Event) : list (string * string) :=
  match tr with
  | [] => []
  | EvLog p s :: tr' => (p, s) :: logged_of tr'
  | _ :: tr' => logged_of tr'
  end.

(** ** Strings *)

(** [str(n)] for a Python int. *)
Definition str (n : Z) : string := NilZero.string_of_int (Z.to_int n).

(** [s * n]: repetition; a count below one gives the empty string. *)
Fixpoint repeat_string (s : string) (n : nat) : string :=
  match n with
  | O => ""
  | S n' => s ++ repeat_string s n'
  end.

Definition str_mul (s : string) (n : Z) : string := repeat_string s (Z.to_nat n).

Definition nl : string := String "010" "".

(** [s.split(sep)] for a one-character separator. *)
Fixpoint split (sep : ascii) (s : string) : list string :=
  match s with
  | EmptyString => [EmptyString]
  | String c rest =>
      if Ascii.eqb c sep then EmptyString :: split sep rest
      else match split sep rest with
           | [] => [String c EmptyString]
           | hd :: tl => String c hd :: tl
           end
  end.

(** ** Levels *)

Definition NONE : Z := -1.
Definition ANY : Z := -1.
Definition OUT : Z := 0.
Definition ERR : Z := 1.
Definition WRN : Z := 2.
Definition INF : Z := 3.
Definition DBG : Z := 4.
Definition DB2 : Z := 5.
Definition IDB : Z := 6.
Definition LOG : Z := 7.

(** The dict [levels], in insertion order. *)
Definition levels : list (string * Z) :=
  [("none", -1); ("any", -1); ("out", 0); ("err", 1); ("wrn", 2); ("inf", 3);
   ("dbg", 4); ("db2", 5); ("idb", 6); ("log", 7)].

(** [levels[name]] *)
Fixpoint levels_get (tbl : list (string * Z)) (name : string) : option Z :=
  match tbl with
  | [] => None
  | (k, v) :: tbl' => if String.eqb k name then Some v else levels_get tbl' name
  end.

(** [list(levels.keys())[list(levels.values()).index(dlvl)]]: the first
    name bound to [dlvl]; [index] raises ValueError when there is none. *)
Fixpoint levels_name_of (tbl : list (string * Z)) (dlvl : Z) : option string :=
  match tbl with
  | [] => None
  | (k, v) :: tbl' => if v =? dlvl then Some k else levels_name_of tbl' dlvl
  end.

Definition level_name (dlvl : Z) : M string :=
  match levels_name_of levels dlvl with
  | Some k => ret k
  | None => raise (ValueError (str dlvl ++ " is not in list"))
  end.

(** ** Frames *)

(** A frame of the interpreter's stack.  [f_file] is the base name of
    the real path of the module's [__file__] global, [None] when the
    module has none. *)
Record Frame : Type := mkFrame {
  f_file   : option string;
  f_func   : string;   (* f_code.co_name *)
  f_lineno : Z
}.

(** A frame of a method of this module, stopped at line [ln]. *)
Definition own_frame (name : string) (ln : Z) : Frame :=
  mkFrame (Some "dbg.py") name ln.

(** [os.path.basename(os.path.realpath(fnm))] with the "<nofile>"
    fallback of the bare [except]. *)
Definition frame_fnm (f : Frame) : string :=
  match f_file f with
  | Some b => b
  | None => "<nofile>"
  end.

(** ** The instance *)

(** The attributes an instance resolves, each to the value bound on the
    instance or else to the class default.  [script], the base name of
    [sys.argv[0]], is read by no method and is left out.  [log_fp] is
    the open handle, identified by the path it appends to. *)
Record Dbg : Type := mkDbg {
  dlvl            : Z;
  trc             : bool;
  log_fp          : option string;
  log_file        : option string;
  log_only        : bool;
  force_out       : bool;
  date_n_time     : bool;
  file_n_line     : bool;
  hdr_date_format : string;
  file_func_line  : bool;
  fnm             : option string;
  func            : option string;
  ln_beg          : option Z;
  ln_end          : option Z
}.

(** The class-body defaults. *)
Definition class_dflt : Dbg :=
  {| dlvl := ERR; trc := false; log_fp := None; log_file := None;
     log_only := false; force_out := true; date_n_time := true;
     file_n_line := true; hdr_date_format := "%Y-%m-%d %H:%M:%S.%f";
     file_func_line := false; fnm := None; func := None;
     ln_beg := None; ln_end := None |}.

Definition setDlvl (d : Dbg) (v : Z) : Dbg :=
  mkDbg v (trc d) (log_fp d) (log_file d) (log_only d) (force_out d)
        (date_n_time d) (file_n_line d) (hdr_date_format d) (file_func_line d)
        (fnm d) (func d) (ln_beg d) (ln_end d).

Definition setTrc (d : Dbg) (on : bool) : Dbg :=
  mkDbg (dlvl d) on (log_fp d) (log_file d) (log_only d) (force_out d)
        (date_n_time d) (file_n_line d) (hdr_date_format d) (file_func_line d)
        (fnm d) (func d) (ln_beg d) (ln_end d).

Definition setLogOnly (d : Dbg) (v : bool) : Dbg :=
  mkDbg (dlvl d) (trc d) (log_fp d) (log_file d) v (force_out d)
        (date_n_time d) (file_n_line d) (hdr_date_format d) (file_func_line d)
        (fnm d) (func d) (ln_beg d) (ln_end d).

Definition setForceOut (d : Dbg) (v : bool) : Dbg :=
  mkDbg (dlvl d) (trc d) (log_fp d) (log_file d) (log_only d) v
        (date_n_time d) (file_n_line d) (hdr_date_format d) (file_func_line d)
        (fnm d) (func d) (ln_beg d) (ln_end d).

Definition setDateNTime (d : Dbg) (v : bool) : Dbg :=
  mkDbg (dlvl d) (trc d) (log_fp d) (log_file d) (log_only d) (force_out d)
        v (file_n_line d) (hdr_date_format d) (file_func_line d)
        (fnm d) (func d) (ln_beg d) (ln_end d).

Definition setFileNLine (d : Dbg) (v : bool) : Dbg :=
  mkDbg (dlvl d) (trc d) (log_fp d) (log_file d) (log_only d) (force_out d)
        (date_n_time d) v (hdr_date_format d) (file_func_line d)
        (fnm d) (func d) (ln_beg d) (ln_end d).

Definition setHdrDateFormat (d : Dbg) (v : string) : Dbg :=
  mkDbg (dlvl d) (trc d) (log_fp d) (log_file d) (log_only d) (force_out d)
        (date_n_time d) (file_n_line d) v (file_func_line d)
        (fnm d) (func d) (ln_beg d) (ln_end d).

(** The assignments of [__init__] that have no setter method. *)
Definition with_log (d : Dbg) (file fp : string) : Dbg :=
  mkDbg (dlvl d) (trc d) (Some fp) (Some file) (log_only d) (force_out d)
        (date_n_time d) (file_n_line d) (hdr_date_format d) (file_func_line d)
        (fnm d) (func d) (ln_beg d) (ln_end d).

Definition with_file_func_line (d : Dbg) (v : bool) : Dbg :=
  mkDbg (dlvl d) (trc d) (log_fp d) (log_file d) (log_only d) (force_out d)
        (date_n_time d) (file_n_line d) (hdr_date_format d) v
        (fnm d) (func d) (ln_beg d) (ln_end d).

Definition with_fnm (d : Dbg) (v : string) : Dbg :=
  mkDbg (dlvl d) (trc d) (log_fp d) (log_file d) (log_only d) (force_out d)
        (date_n_time d) (file_n_line d) (hdr_date_format d) (file_func_line d)
        (Some v) (func d) (ln_beg d) (ln_end d).

Definition with_func (d : Dbg) (v : string) : Dbg :=
  mkDbg (dlvl d) (trc d) (log_fp d) (log_file d) (log_only d) (force_out d)
        (date_n_time d) (file_n_line d) (hdr_date_format d) (file_func_line d)
        (fnm d) (Some v) (ln_beg d) (ln_end d).

Definition with_ln_beg (d : Dbg) (v : Z) : Dbg :=
  mkDbg (dlvl d) (trc d) (log_fp d) (log_file d) (log_only d) (force_out d)
        (date_n_time d) (file_n_line d) (hdr_date_format d) (file_func_line d)
        (fnm d) (func d) (Some v) (ln_end d).

Definition with_ln_end (d : Dbg) (v : Z) : Dbg :=
  mkDbg (dlvl d) (trc d) (log_fp d) (log_file d) (log_only d) (force_out d)
        (date_n_time d) (file_n_line d) (hdr_date_format d) (file_func_line d)
        (fnm d) (func d) (ln_beg d) (Some v).

(** [if v != None: d = f(d, v)] *)
Definition when_given {A} (v : option A) (f : Dbg -> A -> Dbg) (d : Dbg) : Dbg :=
  match v with
  | Some a => f d a
  | None => d
  end.

(** ** Construction *)

(** The keyword arguments of [__init__]. *)
Record InitArgs : Type := mkInitArgs {
  a_lvl             : string;
  a_trc             : bool;
  a_log_file        : option string;
  a_log_only        : option bool;
  a_force_out       : option bool;
  a_date_n_time     : option bool;
  a_file_n_line     : option bool;
  a_hdr_date_format : option string;
  a_file_func_line  : option bool;
  a_file_name       : option string;
  a_func_name       : option string;
  a_line_begin      : option Z;
  a_line_end        : option Z
}.

(** [lvl_dflt] and [trc_dflt], and [None] everywhere else. *)
Definition lvl_dflt : string := "err".
Definition trc_dflt : bool := false.

Definition args_dflt : InitArgs :=
  mkInitArgs lvl_dflt trc_dflt None None None None None None None None None None None.

Definition __init__ (a : InitArgs) : M Dbg :=
  match levels_get levels (a_lvl a) with
  | None =>
      raise (ValueError ("Debug level of '" ++ a_lvl a ++ "' not recognized."))
  | Some v =>
      let d := setDlvl class_dflt v in
      let d := setTrc d (a_trc a) in
      d <- match a_log_file a with
           | Some file => fp <- open_append file ;; ret (with_log d file fp)
           | None => ret d
           end ;;
      let d := when_given (a_log_only a) setLogOnly d in
      let d := when_given (a_force_out a) setForceOut d in
      let d := when_given (a_date_n_time a) setDateNTime d in
      let d := when_given (a_file_n_line a) setFileNLine d in
      match a_log_only a, a_log_file a with
      | Some true, None => raise (ValueError "Can't specify log_only and no log_file!")
      | _, _ =>
          let d := when_given (a_hdr_date_format a) setHdrDateFormat d in
          let d := when_given (a_file_func_line a) with_file_func_line d in
          let d := when_given (a_file_name a) with_fnm d in
          let d := when_given (a_func_name a) with_func d in
          let d := when_given (a_line_begin a) with_ln_beg d in
          let d := when_given (a_line_end a) with_ln_end d in
          ret d
      end
  end.

(** ** Stack depth *)

(** The loop of [__frame_depth]: [rest] holds the frames from index
    [dpth] on; [sys._getframe(dpth)] raises ValueError when it is empty. *)
Fixpoint frame_depth_loop (rest : list Frame) (dpth : Z) : Z :=
  match rest with
  | [] => dpth - 1
  | _ :: rest' => frame_depth_loop rest' (dpth + 1)
  end.

(** [back] is the stack from the caller of [__frame_depth] outwards;
    index 0 of [sys._getframe] is [__frame_depth]'s own frame. *)
Definition __frame_depth (back : list Frame) (less : option Z) : Z :=
  let dpth := 2 in
  let dpth := match less with Some l => dpth + l | None => dpth end in
  frame_depth_loop (skipn (Z.to_nat (dpth - 1)) back) dpth.

(** ** Formatter *)

(** [back] is the stack from the caller of [__format_line] outwards;
    the call site is [f_back.f_back.f_back]. *)
Definition __format_line (d : Dbg) (back : list Frame) (lvl : Z) (txt : string)
  : M string :=
  let hdr := "" in
  hdr <- (if date_n_time d
          then now <- now_strftime (hdr_date_format d) ;;
               name <- level_name lvl ;;
               ret (hdr ++ now ++ " " ++ name)
          else ret hdr) ;;
  match nth_error back 2 with
  | None => raise AttributeError
  | Some site =>
      let fnm := frame_fnm site in
      let func := f_func site in
      let ln := f_lineno site in
      let hdr :=
        if file_n_line d
        then
          let func := if String.eqb func "<module>" then "__main__:" else func ++ "():" in
          let hdr := if date_n_time d then hdr ++ " " else hdr in
          hdr ++ fnm ++ ":" ++ func ++ str ln
        else hdr in
      let hdr :=
        if file_n_line d || date_n_time d then "[" ++ hdr ++ "] " else hdr in
      ret (hdr ++ txt ++ nl)
  end.

(** ** Filter *)

(** The locals [fnm], [func], [ln] of [__filter]. *)
Record Site : Type := mkSite {
  s_fnm  : string;
  s_func : string;
  s_ln   : Z
}.

Definition site_of (f : Frame) : Site :=
  mkSite (frame_fnm f) (f_func f) (f_lineno f).

(** The [while dpth > 0] walk: each turn overwrites the locals with
    those of [frame] and moves to [frame.f_back]. *)
Fixpoint filter_walk (dpth : nat) (frame : list Frame) (site : option Site)
  : outcome (option Site) :=
  match dpth with
  | O => Ret site
  | S dpth' =>
      match frame with
      | [] => Raise AttributeError
      | f :: f_back => filter_walk dpth' f_back (Some (site_of f))
      end
  end.

(** [for fnc in names: if func == fnc: return False] then [return True] *)
Fixpoint func_not_listed (func : string) (names : list string) : bool :=
  match names with
  | [] => true
  | fnc :: names' => if String.eqb func fnc then false else func_not_listed func names'
  end.

(** The tests that follow the walk, on the locals it bound. *)
Definition filter_tests (d : Dbg) (s : Site) : bool :=
  if (match fnm d with Some want => negb (String.eqb (s_fnm s) want) | None => false end)
  then true
  else
    match func d with
    | Some names => func_not_listed (s_func s) (split "," names)
    | None =>
        if (match ln_beg d with Some b => s_ln s <? b | None => false end)
        then true
        else if (match ln_end d with Some e => s_ln s >? e | None => false end)
        then true
        else false
    end.

(** [back] is the stack from the caller of [__filter] outwards.  When
    the walk binds nothing ([dpth] is 0), the first test that reads a
    local raises UnboundLocalError; with no filter set none is read. *)
Definition __filter (d : Dbg) (back : list Frame) (dpth : nat) : M bool :=
  match filter_walk dpth back None with
  | Raise e => raise e
  | Ret (Some s) => ret (filter_tests d s)
  | Ret None =>
      match fnm d, func d, ln_beg d, ln_end d with
      | None, None, None, None => ret false
      | _, _, _, _ => raise UnboundLocalError
      end
  end.

(** ** Sink writer *)

(** [back] is the stack from the caller of [__print] outwards. *)
Definition __print (d : Dbg) (back : list Frame) (lvl : Z) (txt : string)
  (dpth : option Z) : M unit :=
  suppress <- __filter d (own_frame "__print" 304 :: back) 3 ;;
  if suppress then ret tt
  else
    (match log_fp d with
     | Some fp =>
         line <- __format_line d (own_frame "__print" 307 :: back) lvl txt ;;
         fp_write fp line
     | None => ret tt
     end) ;;;
    if negb (log_only d)
    then
      let ws :=
        if trc d && negb (log_only d)
        then
          let ws_dpth := __frame_depth (own_frame "__print" 313 :: back) None - 3 in
          let ws_dpth := match dpth with Some k => k - 2 | None => ws_dpth end in
          str_mul "  " ws_dpth
        else "" in
      stdout_write (ws ++ txt ++ nl)
    else ret tt.

(** ** Level-gated emit *)

Definition any (d : Dbg) (back : list Frame) (txt : string) : M unit :=
  if dlvl d >=? ANY then __print d (own_frame "any" 322 :: back) ANY txt None else ret tt.

Definition out (d : Dbg) (back : list Frame) (txt : string) : M unit :=
  if dlvl d >=? OUT then __print d (own_frame "out" 324 :: back) OUT txt None else ret tt.

Definition err (d : Dbg) (back : list Frame) (txt : string) : M unit :=
  if dlvl d >=? ERR then __print d (own_frame "err" 326 :: back) ERR txt None else ret tt.

Definition wrn (d : Dbg) (back : list Frame) (txt : string) : M unit :=
  if dlvl d >=? WRN then __print d (own_frame "wrn" 328 :: back) WRN txt None else ret tt.

Definition inf (d : Dbg) (back : list Frame) (txt : string) : M unit :=
  if dlvl d >=? INF then __print d (own_frame "inf" 330 :: back) INF txt None else ret tt.

Definition dbg (d : Dbg) (back : list Frame) (txt : string) : M unit :=
  if dlvl d >=? DBG then __print d (own_frame "dbg" 332 :: back) DBG txt None else ret tt.

Definition db2 (d : Dbg) (back : list Frame) (txt : string) : M unit :=
  if dlvl d >=? DB2 then __print d (own_frame "db2" 334 :: back) DB2 txt None else ret tt.

Definition log (d : Dbg) (back : list Frame) (txt : string) : M unit :=
  if dlvl d >=? LOG then __print d (own_frame "log" 336 :: back) LOG txt None else ret tt.

(** The eight level-gated methods, by name. *)
Inductive Emit : Type :=
| E_any | E_out | E_err | E_wrn | E_inf | E_dbg | E_db2 | E_log.

Definition emit_level (e : Emit) : Z :=
  match e with
  | E_any => ANY | E_out => OUT | E_err => ERR | E_wrn => WRN
  | E_inf => INF | E_dbg => DBG | E_db2 => DB2 | E_log => LOG
  end.

Definition emit (e : Emit) : Dbg -> list Frame -> string -> M unit :=
  match e with
  | E_any => any | E_out => out | E_err => err | E_wrn => wrn
  | E_inf => inf | E_dbg => dbg | E_db2 => db2 | E_log => log
  end.

(** ** Recorder *)

(** [back] is the stack from the caller of [msg] outwards. *)
Definition msg (d : Dbg) (back : list Frame) (lvl : Z) (txt : string) : M unit :=
  if (lvl <? ANY) || (lvl >? LOG)
  then raise (ValueError ("Debug level of '" ++ str lvl ++ "' not recognized."))
  else
    name <- level_name lvl ;;
    match back with
    | [] => raise AttributeError
    | caller :: _ =>
        let fnm := frame_fnm caller in
        let func := f_func caller in
        let ln := f_lineno caller in
        let dpth := __frame_depth (own_frame "msg" 112 :: back) (Some 1) in
        let mobj := mkMsg name fnm func ln txt lvl dpth in
        l <- get_dmsgs ;;
        set_dmsgs (l ++ [mobj])
    end.

(** The five [continue] tests of the loop of [msgs]. *)
Definition msgs_skip (lvl : option Z) (fnm func : option string)
  (ln_beg ln_end : option Z) (m : Msg) : bool :=
  if (match lvl with Some v => m_dlvl m >? v | None => false end) then true
  else if (match fnm with Some v => negb (String.eqb (m_fnm m) v) | None => false end) then true
  else if (match func with Some v => negb (String.eqb (m_func m) v) | None => false end) then true
  else if (match ln_beg with Some v => m_ln m <? v | None => false end) then true
  else if (match ln_end with Some v => m_ln m >=? v | None => false end) then true
  else false.

(** The body of the loop of [msgs] for one message. *)
Definition msgs_one (d : Dbg) (back : list Frame) (lvl : option Z)
  (fnm func : option string) (ln_beg ln_end : option Z) (ffl : bool) (m : Msg)
  : M unit :=
  if msgs_skip lvl fnm func ln_beg ln_end m then ret tt
  else
    let txt := m_txt m in
    let txt :=
      if ffl
      then m_fnm m ++ ":" ++ m_func m ++ "():" ++ str (m_ln m) ++
           "(" ++ str (m_dpth m) ++ ") " ++ m_lvl m ++ " " ++ m_txt m
      else txt in
    let pdlvl := m_dlvl m in
    let pdlvl := match lvl with Some v => v | None => pdlvl end in
    __print d (own_frame "msgs" 144 :: back) pdlvl txt (Some (m_dpth m)).

Fixpoint msgs_loop (d : Dbg) (back : list Frame) (lvl : option Z)
  (fnm func : option string) (ln_beg ln_end : option Z) (ffl : bool)
  (l : list Msg) : M unit :=
  match l with
  | [] => ret tt
  | m :: l' =>
      msgs_one d back lvl fnm func ln_beg ln_end ffl m ;;;
      msgs_loop d back lvl fnm func ln_beg ln_end ffl l'
  end.

(** [back] is the stack from the caller of [msgs] outwards.  A banner
    that is [None] or empty is falsy. *)
Definition msgs (d : Dbg) (back : list Frame) (banner : option string)
  (lvl : option Z) (fnm func : option string) (ln_beg ln_end : option Z)
  (ffl : option bool) (clr : bool) : M unit :=
  let ffl := match ffl with Some v => v | None => file_func_line d end in
  (match banner with
   | None | Some EmptyString => ret tt
   | Some text => __print d (own_frame "msgs" 131 :: back) OUT text None
   end) ;;;
  l <- get_dmsgs ;;
  msgs_loop d back lvl fnm func ln_beg ln_end ffl l ;;;
  if clr then set_dmsgs [] else ret tt.

(** [msgs()] with every keyword at its default. *)
Definition msgs_dflt (d : Dbg) (back : list Frame) : M unit :=
  msgs d back None None None None None None None true.

Definition errs (d : Dbg) : M bool :=
  l <- get_dmsgs ;;
  if (Z.of_nat (List.length l) >? 0) then ret true else ret false.

Definition clr (d : Dbg) : M unit := set_dmsgs [].

(** ** Trace helper *)

(** [back] is the stack from the caller of [__enter] outwards. *)
Definition __enter (d : Dbg) (back : list Frame) (text : string) : M unit :=
  if negb (trc d) then ret tt
  else
    suppress <- __filter d (own_frame "__enter" 267 :: back) 3 ;;
    if suppress then ret tt
    else
      let dpth := __frame_depth (own_frame "__enter" 269 :: back) None in
      match nth_error back 1 with
      | None => raise AttributeError
      | Some caller =>
          let func := f_func caller in
          let ws := str_mul "  " (dpth - 4) in
          let ln := func ++ "(" ++ text ++ ") {" in
          (if negb (log_only d) then stdout_write (ws ++ ln ++ nl) else ret tt) ;;;
          match log_fp d with
          | Some fp =>
              line <- __format_line d (own_frame "__enter" 278 :: back) DBG ln ;;
              fp_write fp line
          | None => ret tt
          end
      end.

Definition enter (d : Dbg) (back : list Frame) (text : string) : M unit :=
  __enter d (own_frame "enter" 261 :: back) text.

(** [back] is the stack from the caller of [__leave] outwards. *)
Definition __leave (d : Dbg) (back : list Frame) (text : string) : M unit :=
  if negb (trc d) then ret tt
  else
    suppress <- __filter d (own_frame "__leave" 288 :: back) 3 ;;
    if suppress then ret tt
    else
      let dpth := __frame_depth (own_frame "__leave" 290 :: back) None in
      match nth_error back 1 with
      | None => raise AttributeError
      | Some caller =>
          let func := f_func caller in
          let lnum := f_lineno caller in
          let ws := str_mul "  " (dpth - 4) in
          let ln := "} # " ++ func ++ ":" ++ str lnum ++ " " ++ text in
          (if negb (log_only d) then stdout_write (ws ++ ln ++ nl) else ret tt) ;;;
          match log_fp d with
          | Some fp =>
              line <- __format_line d (own_frame "__leave" 298 :: back) DBG ln ;;
              fp_write fp line
          | None => ret tt
          end
      end.

Definition leave (d : Dbg) (back : list Frame) (text : string) : M unit :=
  __leave d (own_frame "leave" 282 :: back) text.

(** ** Running a computation *)

Definition result_of {A} (m : M A) (w : World) : outcome A := fst (m w).

Definition world_after {A} (m : M A) (w : World) : World := snd (m w).

(** The events a computation adds to the trace of [w]. *)
Definition output_of {A} (m : M A) (w : World) : list Event :=
  skipn (List.length (trace w)) (trace (world_after m w)).



(** A store with nothing buffered and nothing written. *)
Definition fresh_world : World :=
  mkWorld [] [] (fun _ => "2024-01-01 00:00:00") (fun _ => true).

(** ** Vocabulary of the statements *)

(** A level name is recognized when it is a key of [levels]. *)
Definition recognized (name : string) : Prop := In name (map fst levels).







(** The last instance of the module's test driver:
    [Dbg('dbg', file_n_line=True, log_file="/tmp/tst.logonly",
         log_only=True, force_out=True)]. *)
Definition log_only_force_out_args : InitArgs :=
  mkInitArgs "dbg" trc_dflt (Some "/tmp/tst.logonly") (Some true) (Some true)
             None (Some true) None None None None None None.

(** The filter as the specification words it: suppress when the file
    filter is set and differs, or the function filter is set and does
    not list the function, or the line lies outside the range that is
    set. *)
Definition shouldSuppress_spec (d : Dbg) (s : Site) : bool :=
  (match fnm d with Some want => negb (String.eqb (s_fnm s) want) | None => false end)
  || (match func d with
      | Some names => negb (existsb (String.eqb (s_func s)) (split "," names))
      | None => false
      end)
  || (match ln_beg d with Some b => s_ln s <? b | None => false end)
  || (match ln_end d with Some e => s_ln s >? e | None => false end).

(** The line [__format_line] builds, given the level name and the
    formatted time it obtained. *)
Definition formatted (d : Dbg) (site : Frame) (name now txt : string) : string :=
  let stamp := if date_n_time d then now ++ " " ++ name else "" in
  let func := if String.eqb (f_func site) "<module>" then "__main__:"
              else f_func site ++ "():" in
  let hdr :=
    if file_n_line d
    then (if date_n_time d then stamp ++ " " else stamp)
         ++ frame_fnm site ++ ":" ++ func ++ str (f_lineno site)
    else stamp in
  (if file_n_line d || date_n_time d then "[" ++ hdr ++ "] " else hdr)
  ++ txt ++ nl.

(** The events of one [__print] for a call site at nesting
    [ws_dpth]: the headed line to the log file, if there is one, then
    the indented text to the console, unless [log_only]. *)
Definition print_events (d : Dbg) (caller : Frame) (ws_dpth : Z)
  (name now txt : string) : list Event :=
  if filter_tests d (site_of caller) then []
  else
    (match log_fp d with
     | Some fp => [EvLog fp (formatted d caller name now txt)]
     | None => []
     end)
    ++ (if log_only d then []
        else [EvOut ((if trc d then str_mul "  " ws_dpth else "") ++ txt ++ nl)]).

Definition add_events (evs : list Event) (w : World) : World :=
  mkWorld (dmsgs w) (trace w ++ evs) (clock w) (can_open w).

Definition site_A : Frame := mkFrame (Some "x") "f" 42.


(** The same with a log file. *)
Definition scenario_A_log_args : InitArgs :=
  mkInitArgs "err" trc_dflt (Some "app.log") None None (Some false) (Some true)
             None None None None None None.

(** [d.msg(lvl, txt)] from the stack [back], then [d.msgs()] from
    [back']. *)
Definition record_then_drain (d : Dbg) (back back' : list Frame) (lvl : Z)
  (txt : string) : M unit :=
  msg d back lvl txt ;;; msgs_dflt d back'.

(** ** Level by name, error helper, exit with messages *)

(** [self.levels[slvl]] on a missing key. *)
Inductive LookupError : Type :=
| KeyError (key : string).

(** [setLvl] does not translate the KeyError, unlike [__init__]. *)
Definition setLvl (d : Dbg) (slvl : string) : LookupError + Dbg :=
  match levels_get levels slvl with
  | Some v => inr (setDlvl d v)
  | None => inl (KeyError slvl)
  end.

Definition getLvl (d : Dbg) : M string := level_name (dlvl d).

(** [except_msg].  [exc_info] is the traceback of the exception being
    handled, if any: the base name of its frame's file and its line.
    [e], when given, is an exception object, which is truthy, carried
    as its [str()].
    With no exception being handled the locals are bound by the
    [try]/[except] around the [__file__] lookup: the three statements
    that normalise [fnm] and bind [ln] sit inside the [except:] branch,
    so when the lookup succeeds [fnm] is the raw [__file__] and [ln] is
    never bound.  [spot] is the pair [(fnm, ln)] when [ln] is bound. *)
Definition except_msg (d : Dbg) (back : list Frame)
  (exc_info : option (string * Z)) (text : option string) (e : option string)
  : M string :=
  match back with
  | [] => raise AttributeError
  | caller :: _ =>
      let spot :=
        match exc_info with
        | Some (tb_file, tb_lineno) => Some (tb_file, tb_lineno)
        | None =>
            match f_file caller with
            | Some _ => None
            | None => Some ("<nofile>", f_lineno caller)
            end
        end in
      let func := f_func caller in
      let msg := match text with Some t => t | None => "" end in
      msg <- (if dlvl d >=? INF
              then match spot with
                   | Some (fnm, ln) =>
                       ret (msg ++ " [" ++ fnm ++ ", " ++ func ++ "(), ln:"
                                ++ str ln ++ "]")
                   | None => raise UnboundLocalError
                   end
              else ret msg) ;;
      let msg := match e with Some s => msg ++ "; " ++ s | None => msg end in
      (if dlvl d >=? DBG
       then __print d (own_frame "except_msg" 433 :: back) DBG msg None
       else ret tt) ;;;
      ret msg
  end.

(** [msgsx].  [sys.exit(1)] ends the method; the computation returns
    the exit status it is reached with.  A message that is [None] or
    empty is falsy. *)
Definition msgsx (d : Dbg) (back : list Frame) (text : option string) : M Z :=
  (match text with
   | None | Some EmptyString => ret tt
   | Some t => msg d (own_frame "msgsx" 121 :: back) ERR t
   end) ;;;
  msgs_dflt d (own_frame "msgsx" 122 :: back) ;;;
  ret 1.

(** ** Sessions *)

(** A call of one of the methods that touch the buffer or the sinks. *)
Inductive Call : Type :=
| C_msg (lvl : Z) (txt : string)
| C_msgs (banner : option string) (lvl : option Z) (fnm func : option string)
         (ln_beg ln_end : option Z) (ffl : option bool) (clr : bool)
| C_clr
| C_emit (e : Emit) (txt : string)
| C_enter (text : string)
| C_leave (text : string).

Definition call (d : Dbg) (back : list Frame) (c : Call) : M unit :=
  match c with
  | C_msg lvl txt => msg d back lvl txt
  | C_msgs banner lvl fnm func ln_beg ln_end ffl clr =>
      msgs d back banner lvl fnm func ln_beg ln_end ffl clr
  | C_clr => clr d
  | C_emit e txt => emit e d back txt
  | C_enter text => enter d back text
  | C_leave text => leave d back text
  end.

(** The store after a run of calls, made through any instances from
    any stacks; a call that raises leaves the store as it was at the
    raise and the run goes on. *)
Fixpoint session (cs : list (Dbg * list Frame * Call)) (w : World) : World :=
  match cs with
  | [] => w
  | (d, back, c) :: cs' => session cs' (world_after (call d back c) w)
  end.

(** A buffered message carries a level of the table and the first name
    the table has for it. *)
Definition msg_ok (m : Msg) : Prop :=
  ANY <= m_dlvl m <= LOG /\ levels_name_of levels (m_dlvl m) = Some (m_lvl m).

Definition buffer_ok (w : World) : Prop := Forall msg_ok (dmsgs w).

(** ** What [msgs] writes *)

(** The text [msgs] prints for a message. *)
Definition replay_text (ffl : bool) (m : Msg) : string :=
  if ffl
  then m_fnm m ++ ":" ++ m_func m ++ "():" ++ str (m_ln m) ++
       "(" ++ str (m_dpth m) ++ ") " ++ m_lvl m ++ " " ++ m_txt m
  else m_txt m.

(** The console event of one [__print] made from [caller]: the text
    behind its indentation, unless the filter rejects the site or
    [log_only] is set. *)
Definition console_events (d : Dbg) (caller : Frame) (ws_dpth : Z) (txt : string)
  : list Event :=
  if filter_tests d (site_of caller) || log_only d then []
  else [EvOut ((if trc d then str_mul "  " ws_dpth else "") ++ txt ++ nl)].

(** The console event of the replay of one message by [msgs] called
    from [caller]. *)
Definition replay_console (d : Dbg) (caller : Frame) (lvl : option Z)
  (fnm func : option string) (ln_beg ln_end : option Z) (ffl : bool) (m : Msg)
  : list Event :=
  if msgs_skip lvl fnm func ln_beg ln_end m then []
  else console_events d caller (m_dpth m - 2) (replay_text ffl m).

(** The console event of the banner. *)
Definition banner_console (d : Dbg) (caller : Frame) (ws_dpth : Z)
  (banner : option string) : list Event :=
  match banner with
  | None | Some EmptyString => []
  | Some text => console_events d caller ws_dpth text
  end.

(** ** Trace lines *)

(** Two spaces per level; none below level one. *)
Definition indent (n : Z) : string := str_mul "  " n.

(** * Properties *)

(** ** The frame walks *)

Lemma frame_depth_loop_length (rest : list Frame) (dpth : Z) :
  frame_depth_loop rest dpth = dpth + Z.of_nat (List.length rest) - 1.
Proof.
  revert dpth.
  induction rest as [|f rest IH]; intros dpth; cbn [frame_depth_loop List.length].
  - lia.
  - rewrite IH. lia.
Qed.

(** Called with no [less] from a method that a public method called,
    [__frame_depth] counts that method, the public one and the
    caller's frames. *)
Lemma frame_depth_in_method (f1 f2 caller : Frame) (outer : list Frame) :
  __frame_depth (f1 :: f2 :: caller :: outer) None
  = Z.of_nat (List.length outer) + 3.
Proof.
  unfold __frame_depth. cbv zeta.
  change (Z.to_nat (2 - 1)) with 1%nat. cbn [skipn].
  rewrite frame_depth_loop_length. cbn [List.length].
  lia.
Qed.

(** Called by [msg] with [less=1], it counts [msg] and the caller's
    frames. *)
Lemma frame_depth_in_msg (f1 caller : Frame) (outer : list Frame) :
  __frame_depth (f1 :: caller :: outer) (Some 1)
  = Z.of_nat (List.length outer) + 2.
Proof.
  unfold __frame_depth. cbv zeta.
  change (Z.to_nat (2 + 1 - 1)) with 2%nat. cbn [skipn].
  rewrite frame_depth_loop_length. lia.
Qed.

(** With depth 3 the filter looks at the frame that called the public
    method. *)
Lemma filter_at_caller (d : Dbg) (f1 f2 caller : Frame) (outer : list Frame)
  (w : World) :
  __filter d (f1 :: f2 :: caller :: outer) 3 w
  = (Ret (filter_tests d (site_of caller)), w).
Proof. reflexivity. Qed.

(** ** Level gating *)

(** C5.  A level-gated emit whose level is strictly above the
    configured threshold returns without writing anything: the store,
    with its console and log-file trace, is left as it was. *)
Theorem emit_above_threshold_silent (e : Emit) (d : Dbg) (back : list Frame)
  (txt : string) (w : World) :
  dlvl d < emit_level e ->
  emit e d back txt w = (Ret tt, w).
Proof.
  intros Hlt.
  assert (Hge : (dlvl d >=? emit_level e) = false).
  { rewrite Z.geb_leb. apply Z.leb_gt. exact Hlt. }
  destruct e; cbn [emit emit_level] in *;
    unfold any, out, err, wrn, inf, dbg, db2, log;
    rewrite Hge; reflexivity.
Qed.

Lemma emit_above_threshold_silent_witness :
  dlvl (setDlvl class_dflt WRN) < emit_level E_dbg
  /\ emit E_dbg (setDlvl class_dflt WRN) [mkFrame (Some "x") "f" 42] "hidden"
       fresh_world = (Ret tt, fresh_world).
Proof.
  split.
  - vm_compute. reflexivity.
  - apply (emit_above_threshold_silent E_dbg (setDlvl class_dflt WRN)).
    vm_compute. reflexivity.
Defined.

(** ** Trace helper and the threshold *)

(** C10.  [enter] and [leave] never read the threshold: under any two
    thresholds they return the same outcome and leave the same store,
    hence write the same lines to the console and to the log file. *)
Theorem trace_ignores_threshold (d : Dbg) (T1 T2 : Z) (back : list Frame)
  (text : string) (w : World) :
  enter (setDlvl d T1) back text w = enter (setDlvl d T2) back text w
  /\ leave (setDlvl d T1) back text w = leave (setDlvl d T2) back text w.
Proof. split; reflexivity. Qed.

(** What the pair writes with tracing on, one frame below the script
    body: the threshold [NONE] does not silence it. *)
Example enter_leave_at_threshold_none :
  let d := setTrc (setDlvl class_dflt NONE) true in
  let back := [mkFrame (Some "x") "f" 42; mkFrame (Some "x") "<module>" 7] in
  console_of (output_of (enter d back "x" ;;; leave d back "y") fresh_world)
  = ["f(x) {" ++ nl; "} # f:42 y" ++ nl].
Proof. vm_compute. reflexivity. Qed.

(** ** Line ranges: replay and live filter *)

(** The two range tests side by side: the test of the replay loop passes
    a message iff [b <= line < e]; the tests of the live filter, with a
    range as its only setting, pass a call site iff [b <= line <= e]. *)
Lemma range_tests_side_by_side (b e : Z) :
  (forall m : Msg,
     msgs_skip None None None (Some b) (Some e) m = false <-> b <= m_ln m < e)
  /\ (forall (d : Dbg) (f1 f2 caller : Frame) (outer : list Frame) (w : World),
        fnm d = None -> func d = None ->
        ln_beg d = Some b -> ln_end d = Some e ->
        exists suppress,
          __filter d (f1 :: f2 :: caller :: outer) 3 w = (Ret suppress, w)
          /\ (suppress = false <-> b <= f_lineno caller <= e)).
Proof.
  split.
  - intros m. unfold msgs_skip.
    destruct (m_ln m <? b) eqn:Hb; destruct (m_ln m >=? e) eqn:He;
      rewrite ?Z.ltb_lt, ?Z.ltb_ge in Hb;
      rewrite Z.geb_leb in He; rewrite ?Z.leb_le, ?Z.leb_gt in He;
      split; intros H; try discriminate; try reflexivity; lia.
  - intros d f1 f2 caller outer w Hfnm Hfunc Hbeg Hend.
    rewrite filter_at_caller. eexists. split; [reflexivity|].
    unfold filter_tests. rewrite Hfnm, Hfunc, Hbeg, Hend.
    cbn [site_of s_ln].
    destruct (f_lineno caller <? b) eqn:Hb;
      destruct (f_lineno caller >? e) eqn:He;
      rewrite ?Z.ltb_lt, ?Z.ltb_ge in Hb;
      rewrite Z.gtb_ltb in He; rewrite ?Z.ltb_lt, ?Z.ltb_ge in He;
      split; intros H; try discriminate; try reflexivity; lia.
Qed.

(** C9 on the code.  The replay: [msgs(ln_beg=10, ln_end=20)] over
    messages recorded at lines 9, 10, 19 and 20 prints those of lines
    10 and 19, begin inclusive and end exclusive.  The live filter with
    the range 10..20 as its only setting prints a call at line 20 and
    not one at line 21.  With the function filter "f,g" set as well, a
    call from [f] at line 50 is printed: the filter returns at the
    function match and never compares the line. *)
Theorem range_filters_at_work :
  let buffered :=
    mkWorld [mkMsg "err" "x" "f" 9 "nine" ERR 2; mkMsg "err" "x" "f" 10 "ten" ERR 2;
             mkMsg "err" "x" "f" 19 "nineteen" ERR 2;
             mkMsg "err" "x" "f" 20 "twenty" ERR 2]
            [] (clock fresh_world) (can_open fresh_world) in
  let ranged := with_ln_end (with_ln_beg class_dflt 10) 20 in
  output_of (msgs class_dflt [site_A] None None None None (Some 10) (Some 20) None true)
    buffered
  = [EvOut ("ten" ++ nl); EvOut ("nineteen" ++ nl)]
  /\ output_of (err ranged [mkFrame (Some "x") "f" 20] "at 20" ;;;
                err ranged [mkFrame (Some "x") "f" 21] "at 21") fresh_world
     = [EvOut ("at 20" ++ nl)]
  /\ output_of (err (with_func ranged "f,g") [mkFrame (Some "x") "f" 50] "at 50")
       fresh_world
     = [EvOut ("at 50" ++ nl)].
Proof. cbv zeta. repeat split; vm_compute; reflexivity. Qed.

(** ** Formatter without header *)

(** C4, as the code has it.  With both header switches off the
    formatter returns the text followed by one newline, and nothing
    before it. *)
Theorem format_line_plain (d : Dbg) (f1 f2 site : Frame) (outer : list Frame)
  (lvl : Z) (txt : string) (w : World) :
  date_n_time d = false ->
  file_n_line d = false ->
  __format_line d (f1 :: f2 :: site :: outer) lvl txt w = (Ret (txt ++ nl), w).
Proof.
  intros Hdate Hfile. unfold __format_line.
  rewrite Hdate, Hfile. reflexivity.
Qed.

Lemma format_line_plain_witness :
  __format_line (setFileNLine (setDateNTime class_dflt false) false)
    [own_frame "__print" 307; own_frame "err" 326; mkFrame (Some "x") "f" 42]
    ERR "boom" fresh_world
  = (Ret ("boom" ++ nl), fresh_world).
Proof.
  apply (format_line_plain (setFileNLine (setDateNTime class_dflt false) false));
    reflexivity.
Defined.

(** C4, as stated, fails: the formatted line is not the text itself. *)
Lemma plain_format_adds_newline :
  result_of
    (__format_line (setFileNLine (setDateNTime class_dflt false) false)
       [own_frame "__print" 307; own_frame "err" 326; mkFrame (Some "x") "f" 42]
       ERR "boom") fresh_world
  <> Ret "boom".
Proof. vm_compute. discriminate. Qed.

(** ** Construction errors *)

Lemma levels_get_none (tbl : list (string * Z)) (name : string) :
  levels_get tbl name = None <-> ~ In name (map fst tbl).
Proof.
  induction tbl as [|[k v] tbl IH]; cbn [levels_get map fst In].
  - split; [intros _ H; exact H | reflexivity].
  - destruct (String.eqb_spec k name) as [Heq|Hne].
    + split; [discriminate | intros H; exfalso; apply H; left; exact Heq].
    + rewrite IH. split.
      * intros H [Hk|Hin]; [exact (Hne Hk) | exact (H Hin)].
      * intros H Hin. apply H. right. exact Hin.
Qed.




(** ** Console suppression *)

(** The filter and the formatter only read the store. *)
Lemma filter_keeps_world (d : Dbg) (back : list Frame) (dpth : nat) (w : World) :
  snd (__filter d back dpth w) = w.
Proof.
  unfold __filter.
  destruct (filter_walk dpth back None) as [[s|]|e]; try reflexivity.
  destruct (fnm d), (func d), (ln_beg d), (ln_end d); reflexivity.
Qed.

Lemma format_line_keeps_world (d : Dbg) (back : list Frame) (lvl : Z)
  (txt : string) (w : World) :
  snd (__format_line d back lvl txt w) = w.
Proof.
  unfold __format_line, bind, now_strftime, level_name.
  destruct (nth_error back 2) as [site|];
    (destruct (date_n_time d); [destruct (levels_name_of levels lvl)|]);
    reflexivity.
Qed.

Lemma console_of_app (tr tr' : list Event) :
  console_of (tr ++ tr') = (console_of tr ++ console_of tr')%list.
Proof.
  induction tr as [|ev tr IH]; [reflexivity|].
  destruct ev; cbn [app console_of]; rewrite IH; reflexivity.
Qed.

(** With [log_only] set, [__print] writes nothing to the console,
    whatever the level and whatever [force_out] says. *)
Lemma print_log_only_console_silent (d : Dbg) (back : list Frame) (lvl : Z)
  (txt : string) (dpth : option Z) (w : World) :
  log_only d = true ->
  console_of (trace (world_after (__print d back lvl txt dpth) w))
  = console_of (trace w).
Proof.
  intros Honly. unfold world_after, __print, bind.
  pose proof (filter_keeps_world d (own_frame "__print" 304 :: back) 3 w) as Hf.
  destruct (__filter d (own_frame "__print" 304 :: back) 3 w) as [[suppress|e] w1];
    cbn [snd] in Hf; subst w1; [|reflexivity].
  destruct suppress; [reflexivity|].
  rewrite Honly. cbn [negb].
  destruct (log_fp d) as [fp|]; [|reflexivity].
  pose proof (format_line_keeps_world d (own_frame "__print" 307 :: back) lvl txt w)
    as Hm.
  destruct (__format_line d (own_frame "__print" 307 :: back) lvl txt w)
    as [[line|e] w2]; cbn [snd] in Hm; subst w2; [|reflexivity].
  unfold fp_write, emit_event, ret. cbn [snd trace].
  rewrite console_of_app. cbn [console_of]. apply app_nil_r.
Qed.

(** C7 on the code.  With [log_only] and [force_out] both set,
    [out("out test")] appends its line to the log file and writes
    nothing to the console: [force_out] is never read by [__print]. *)
Theorem out_log_only_force_out_not_on_console :
  let run := d <- __init__ log_only_force_out_args ;;
             out d [mkFrame (Some "x") "samples" 723; mkFrame (Some "x") "<module>" 771]
                 "out test" in
  result_of run fresh_world = Ret tt
  /\ console_of (output_of run fresh_world) = []
  /\ logged_of (output_of run fresh_world)
     = [("/tmp/tst.logonly",
         "[2024-01-01 00:00:00 out x:samples():723] out test" ++ nl)].
Proof. vm_compute. repeat split. Qed.

(** ** Live filter *)

Lemma func_not_listed_existsb (f : string) (names : list string) :
  func_not_listed f names = negb (existsb (String.eqb f) names).
Proof.
  induction names as [|n names IH]; cbn [func_not_listed existsb]; [reflexivity|].
  destruct (String.eqb f n); cbn [orb negb]; [reflexivity | exact IH].
Qed.

(** Without a function filter the code and the wording agree. *)
Lemma filter_tests_no_func (d : Dbg) (s : Site) :
  func d = None -> filter_tests d s = shouldSuppress_spec d s.
Proof.
  intros Hfunc. unfold filter_tests, shouldSuppress_spec. rewrite Hfunc.
  destruct (match fnm d with Some want => negb (String.eqb (s_fnm s) want) | None => false end);
    cbn [orb]; [reflexivity|].
  destruct (match ln_beg d with Some b => s_ln s <? b | None => false end);
    cbn [orb]; [reflexivity|].
  destruct (match ln_end d with Some e => s_ln s >? e | None => false end);
    reflexivity.
Qed.

(** With a function filter the line range is never consulted. *)
Lemma filter_tests_with_func (d : Dbg) (s : Site) (names : string) :
  func d = Some names ->
  filter_tests d s
  = (match fnm d with Some want => negb (String.eqb (s_fnm s) want) | None => false end)
    || negb (existsb (String.eqb (s_func s)) (split "," names)).
Proof.
  intros Hfunc. unfold filter_tests. rewrite Hfunc, func_not_listed_existsb.
  destruct (match fnm d with Some want => negb (String.eqb (s_fnm s) want) | None => false end);
    reflexivity.
Qed.

(** C3 on the code.  With the function filter "f,g" and the line range
    10..20, a call from [f] at line 50 is not suppressed, although the
    line lies outside the range: the loop over the allow-list returns
    as soon as the function matches. *)
Theorem filter_func_match_skips_line_range :
  let d := with_ln_end (with_ln_beg (with_func class_dflt "f,g") 10) 20 in
  let caller := mkFrame (Some "x") "f" 50 in
  __filter d [own_frame "__print" 304; own_frame "err" 326; caller] 3 fresh_world
  = (Ret false, fresh_world)
  /\ shouldSuppress_spec d (site_of caller) = true.
Proof. split; vm_compute; reflexivity. Qed.

(** ** What [__print] writes *)

Lemma format_line_formatted (d : Dbg) (f1 f2 site : Frame) (outer : list Frame)
  (lvl : Z) (name txt : string) (w : World) :
  levels_name_of levels lvl = Some name ->
  __format_line d (f1 :: f2 :: site :: outer) lvl txt w
  = (Ret (formatted d site name (clock w (hdr_date_format d)) txt), w).
Proof.
  intros Hname.
  unfold __format_line, formatted, bind, now_strftime, level_name.
  rewrite Hname. cbn [nth_error].
  destruct (date_n_time d); reflexivity.
Qed.

Lemma add_events_nil (w : World) : add_events [] w = w.
Proof. destruct w as [dm tr ck op]. unfold add_events. cbn. rewrite app_nil_r. reflexivity. Qed.

Lemma print_closed_form (d : Dbg) (f2 caller : Frame) (outer : list Frame)
  (lvl : Z) (name txt : string) (dpth : option Z) (w : World) :
  levels_name_of levels lvl = Some name ->
  __print d (f2 :: caller :: outer) lvl txt dpth w
  = (Ret tt,
     add_events
       (print_events d caller
          (match dpth with Some k => k - 2 | None => Z.of_nat (List.length outer) end)
          name (clock w (hdr_date_format d)) txt)
       w).
Proof.
  intros Hname. unfold __print, bind, print_events.
  rewrite filter_at_caller.
  destruct (filter_tests d (site_of caller)).
  - rewrite add_events_nil. reflexivity.
  - rewrite frame_depth_in_method, Z.add_simpl_r.
    destruct (log_fp d) as [fp|].
    + rewrite (format_line_formatted d _ _ _ _ _ name _ _ Hname).
      unfold fp_write, stdout_write, emit_event, add_events, ret.
      destruct (log_only d); cbn [negb andb app trace dmsgs clock can_open].
      * reflexivity.
      * rewrite andb_true_r, <- app_assoc. reflexivity.
    + unfold stdout_write, emit_event, add_events, ret.
      destruct (log_only d); cbn [negb andb app trace dmsgs clock can_open].
      * rewrite app_nil_r. destruct w; reflexivity.
      * rewrite andb_true_r. reflexivity.
Qed.

Lemma output_of_add_events {A} (m : M A) (r : outcome A) (evs : list Event) (w : World) :
  m w = (r, add_events evs w) -> output_of m w = evs.
Proof.
  intros Hrun. unfold output_of, world_after. rewrite Hrun.
  cbn [snd add_events trace].
  induction (trace w) as [|ev tr IH]; [reflexivity | exact IH].
Qed.

Lemma emit_levels_named (e : Emit) :
  exists name, levels_name_of levels (emit_level e) = Some name.
Proof. destruct e; eexists; reflexivity. Qed.

(** ** Scenario A: [err("boom")] at x:f():42 *)




(** ** The buffer is shared *)

Lemma levels_named_in_range (lvl : Z) :
  ANY <= lvl <= LOG -> exists name, levels_name_of levels lvl = Some name.
Proof.
  unfold ANY, LOG. intros Hrange.
  assert (Hcases : lvl = -1 \/ lvl = 0 \/ lvl = 1 \/ lvl = 2 \/ lvl = 3
                   \/ lvl = 4 \/ lvl = 5 \/ lvl = 6 \/ lvl = 7) by lia.
  repeat (destruct Hcases as [Hcases|Hcases]; [subst lvl; eexists; reflexivity|]).
  subst lvl; eexists; reflexivity.
Qed.

Lemma msg_appends (d : Dbg) (caller : Frame) (outer : list Frame) (lvl : Z)
  (name txt : string) (w : World) :
  ANY <= lvl <= LOG ->
  levels_name_of levels lvl = Some name ->
  msg d (caller :: outer) lvl txt w
  = (Ret tt,
     mkWorld (dmsgs w
              ++ [mkMsg name (frame_fnm caller) (f_func caller) (f_lineno caller)
                        txt lvl (Z.of_nat (List.length outer) + 2)])
             (trace w) (clock w) (can_open w)).
Proof.
  intros [Hlo Hhi] Hname. unfold msg.
  assert (Hin : (lvl <? ANY) || (lvl >? LOG) = false).
  { apply orb_false_iff. split; [apply Z.ltb_ge; exact Hlo|].
    rewrite Z.gtb_ltb. apply Z.ltb_ge. exact Hhi. }
  rewrite Hin. unfold bind, level_name. rewrite Hname.
  rewrite frame_depth_in_msg. reflexivity.
Qed.

(** C2, as the code has it.  The buffer is the one class-level list:
    after [msg] on any instance [A], with a level from [ANY] to [LOG],
    [errs] on every instance [B] answers true and the list that [B]'s
    [msgs] iterates ends with the message recorded through [A]. *)
Theorem dmsgs_shared_by_all_instances (A B : Dbg) (caller : Frame)
  (outer : list Frame) (lvl : Z) (txt : string) (w : World) :
  ANY <= lvl <= LOG ->
  let w' := world_after (msg A (caller :: outer) lvl txt) w in
  result_of (msg A (caller :: outer) lvl txt) w = Ret tt
  /\ result_of (errs B) w' = Ret true
  /\ exists m, result_of get_dmsgs w' = Ret (dmsgs w ++ [m])%list
               /\ m_txt m = txt /\ m_dlvl m = lvl.
Proof.
  intros Hrange w'.
  destruct (levels_named_in_range lvl Hrange) as [name Hname].
  unfold w', world_after, result_of.
  rewrite (msg_appends A caller outer lvl name txt w Hrange Hname).
  cbn [fst snd]. split; [reflexivity|]. split.
  - unfold errs, bind, get_dmsgs. cbn [dmsgs].
    rewrite length_app. cbn [List.length].
    destruct (Z.of_nat (List.length (dmsgs w) + 1) >? 0) eqn:Hpos; [reflexivity|].
    rewrite Z.gtb_ltb in Hpos. apply Z.ltb_ge in Hpos. lia.
  - eexists. split; [reflexivity|]. split; reflexivity.
Qed.

Lemma dmsgs_shared_by_all_instances_witness :
  result_of (errs (setDlvl class_dflt DBG))
    (world_after (msg (setDlvl class_dflt ERR) [site_A] ERR "boom") fresh_world)
  = Ret true.
Proof.
  assert (Hrange : ANY <= ERR <= LOG) by (unfold ANY, ERR, LOG; lia).
  destruct (dmsgs_shared_by_all_instances
              (setDlvl class_dflt ERR) (setDlvl class_dflt DBG)
              site_A [] ERR "boom" fresh_world Hrange) as [_ [Hseen _]].
  exact Hseen.
Defined.

(** C2, as stated, fails: two different instances, nothing buffered;
    after [msg] on the first, [errs] on the second turns true and the
    second's [msgs] prints the first's message. *)
Lemma record_on_one_instance_seen_by_other :
  let A := setDlvl class_dflt ERR in
  let B := setDlvl class_dflt DBG in
  let recorded := world_after (msg A [site_A] ERR "boom") fresh_world in
  A <> B
  /\ result_of (errs B) fresh_world = Ret false
  /\ result_of (errs B) recorded = Ret true
  /\ console_of (output_of (msgs_dflt B [mkFrame (Some "y") "g" 7]) fresh_world) = []
  /\ console_of (output_of (msgs_dflt B [mkFrame (Some "y") "g" 7]) recorded)
     = ["boom" ++ nl].
Proof.
  cbv zeta. split; [intros Heq; discriminate (f_equal dlvl Heq)|].
  repeat split; vm_compute; reflexivity.
Qed.

(** ** Record, then drain *)

Lemma emit_level_range (e : Emit) : ANY <= emit_level e <= LOG.
Proof. destruct e; cbn; unfold ANY, LOG, OUT, ERR, WRN, INF, DBG, DB2; lia. Qed.

Lemma emit_allowed_prints (e : Emit) (d : Dbg) (back : list Frame) (txt : string) :
  emit_level e <= dlvl d ->
  exists f, emit e d back txt = __print d (f :: back) (emit_level e) txt None.
Proof.
  intros Hle.
  assert (Hge : (dlvl d >=? emit_level e) = true).
  { rewrite Z.geb_leb. apply Z.leb_le. exact Hle. }
  destruct e; cbn [emit emit_level] in *;
    unfold any, out, err, wrn, inf, dbg, db2, log;
    rewrite Hge; eexists; reflexivity.
Qed.

(** C6, as the code has it.  When the threshold lets the level through,
    nothing else is buffered, [file_func_line] is off and [msgs()] is
    called from the same file, function and line as [msg], recording
    and then draining gives the outcome and the store, hence the
    console and log-file lines, of the direct emit at that site. *)
Theorem record_then_drain_as_emit (e : Emit) (d : Dbg) (caller : Frame)
  (outer outer' : list Frame) (txt : string) (w : World) :
  dmsgs w = [] ->
  emit_level e <= dlvl d ->
  file_func_line d = false ->
  record_then_drain d (caller :: outer) (caller :: outer') (emit_level e) txt w
  = emit e d (caller :: outer) txt w.
Proof.
  intros Hempty Hle Hffl.
  destruct (emit_levels_named e) as [name Hname].
  destruct (emit_allowed_prints e d (caller :: outer) txt Hle) as [f Hemit].
  rewrite Hemit.
  rewrite (print_closed_form d f caller outer _ name txt None w Hname).
  unfold record_then_drain, bind at 1.
  rewrite (msg_appends d caller outer _ name txt w (emit_level_range e) Hname).
  rewrite Hempty. cbn [app].
  unfold msgs_dflt, msgs. rewrite Hffl.
  unfold bind at 1. unfold ret at 1.
  unfold bind at 1. unfold get_dmsgs at 1. cbn [dmsgs].
  unfold bind at 1. cbn [msgs_loop]. unfold bind at 1.
  unfold msgs_one. cbn [msgs_skip m_txt m_dlvl m_dpth].
  rewrite (print_closed_form d _ caller outer' _ name txt _ _ Hname).
  rewrite Z.add_simpl_r.
  unfold ret, set_dmsgs, add_events. cbn [dmsgs trace clock can_open].
  rewrite Hempty. reflexivity.
Qed.

Lemma record_then_drain_as_emit_witness :
  let d := setDlvl class_dflt DBG in
  record_then_drain d [site_A] [site_A] (emit_level E_wrn) "careful" fresh_world
  = emit E_wrn d [site_A] "careful" fresh_world.
Proof.
  apply (record_then_drain_as_emit E_wrn (setDlvl class_dflt DBG) site_A [] []).
  - reflexivity.
  - vm_compute. discriminate.
  - reflexivity.
Defined.

(** C6, as stated, fails: at threshold [WRN] a direct [dbg("hidden")]
    writes nothing, while recording the same message at [DBG] and
    draining it prints it. *)
Lemma record_then_drain_not_gated :
  let d := setDlvl class_dflt WRN in
  output_of (emit E_dbg d [site_A] "hidden") fresh_world = []
  /\ output_of (record_then_drain d [site_A] [site_A] (emit_level E_dbg) "hidden")
       fresh_world = [EvOut ("hidden" ++ nl)]
  /\ output_of (record_then_drain d [site_A] [site_A] (emit_level E_dbg) "hidden")
       fresh_world
     <> output_of (emit E_dbg d [site_A] "hidden") fresh_world.
Proof.
  cbv zeta. repeat split; try (vm_compute; reflexivity).
  vm_compute. discriminate.
Qed.

(** The replay filters and heads the line by the call site of
    [msgs()], not by the recorded one. *)
Example drain_uses_its_own_call_site :
  let d := with_log (setFileNLine (setDateNTime (setDlvl class_dflt DBG) false) true)
                    "app.log" "app.log" in
  logged_of (output_of (record_then_drain d [site_A] [mkFrame (Some "x") "f" 43]
                          ERR "boom") fresh_world)
  = [("app.log", "[x:f():43] boom" ++ nl)]
  /\ logged_of (output_of (err d [site_A] "boom") fresh_world)
     = [("app.log", "[x:f():42] boom" ++ nl)]
  /\ output_of (record_then_drain (with_func (setDlvl class_dflt DBG) "f")
                  [site_A] [mkFrame (Some "x") "g" 43] ERR "boom") fresh_world
     = [].
Proof. repeat split; vm_compute; reflexivity. Qed.

(** With [file_func_line] set the replayed text carries the recorded
    site, depth and level name. *)
Example drain_with_file_func_line :
  output_of (record_then_drain (with_file_func_line (setDlvl class_dflt DBG) true)
               [site_A] [site_A] ERR "boom") fresh_world
  = [EvOut ("x:f():42(2) err boom" ++ nl)].
Proof. vm_compute. reflexivity. Qed.

(** Scenario D: with the function filter "f,g" a call from [h] is
    suppressed and a call from [f] is not. *)
Example func_filter_scenario :
  let run :=
    d <- __init__ (mkInitArgs "dbg" trc_dflt None None None (Some false) None None
                              None None (Some "f,g") None None) ;;
    err d [mkFrame (Some "x") "h" 5] "from h" ;;;
    err d [mkFrame (Some "x") "f" 6] "from f" in
  output_of run fresh_world = [EvOut ("from f" ++ nl)].
Proof. vm_compute. reflexivity. Qed.

(** * Further properties *)

(** ** Recording *)

(** [msg] checks the level before anything else: outside [ANY..LOG] it
    raises ValueError and leaves the store alone, from any stack; inside
    it writes to no sink and appends one message that carries the
    caller's file, function and line, the text, the level with its
    first name in the table, and the caller's depth plus one. *)
Theorem msg_outcome (d : Dbg) (caller : Frame) (outer : list Frame) (lvl : Z)
  (txt : string) (w : World) :
  (lvl < ANY \/ LOG < lvl ->
   forall back, exists what, msg d back lvl txt w = (Raise (ValueError what), w))
  /\ (ANY <= lvl <= LOG ->
      exists name,
        levels_name_of levels lvl = Some name
        /\ msg d (caller :: outer) lvl txt w
           = (Ret tt,
              mkWorld (dmsgs w
                       ++ [mkMsg name (frame_fnm caller) (f_func caller)
                                 (f_lineno caller) txt lvl
                                 (Z.of_nat (List.length outer) + 2)])
                      (trace w) (clock w) (can_open w))).
Proof.
  split.
  - intros Hout back. unfold msg.
    assert (Hbad : (lvl <? ANY) || (lvl >? LOG) = true).
    { apply orb_true_iff. destruct Hout as [Hlo|Hhi].
      - left. apply Z.ltb_lt. exact Hlo.
      - right. rewrite Z.gtb_ltb. apply Z.ltb_lt. exact Hhi. }
    rewrite Hbad. eexists. reflexivity.
  - intros Hrange.
    destruct (levels_named_in_range lvl Hrange) as [name Hname].
    exists name. split; [exact Hname|].
    apply msg_appends; assumption.
Qed.

Lemma msg_outcome_witness :
  (exists what,
     msg class_dflt [site_A] 8 "boom" fresh_world = (Raise (ValueError what), fresh_world))
  /\ exists name,
       levels_name_of levels ANY = Some name
       /\ msg class_dflt [site_A; mkFrame (Some "x") "<module>" 7] ANY "boom" fresh_world
          = (Ret tt,
             mkWorld [mkMsg name "x" "f" 42 "boom" ANY 3] []
                     (clock fresh_world) (can_open fresh_world)).
Proof.
  destruct (msg_outcome class_dflt site_A [mkFrame (Some "x") "<module>" 7]
              8 "boom" fresh_world) as [Hbad _].
  destruct (msg_outcome class_dflt site_A [mkFrame (Some "x") "<module>" 7]
              ANY "boom" fresh_world) as [_ Hgood].
  split.
  - apply Hbad. right. unfold LOG. lia.
  - apply Hgood. unfold ANY, LOG. lia.
Defined.

(** ** The buffer across calls *)

Lemma print_keeps_dmsgs (d : Dbg) (back : list Frame) (lvl : Z) (txt : string)
  (dpth : option Z) (w : World) :
  dmsgs (world_after (__print d back lvl txt dpth) w) = dmsgs w.
Proof.
  unfold world_after, __print, bind.
  pose proof (filter_keeps_world d (own_frame "__print" 304 :: back) 3 w) as Hf.
  destruct (__filter d (own_frame "__print" 304 :: back) 3 w) as [[suppress|e] w1];
    cbn [snd] in Hf; subst w1; [|reflexivity].
  destruct suppress; [reflexivity|].
  destruct (log_fp d) as [fp|].
  - pose proof (format_line_keeps_world d (own_frame "__print" 307 :: back) lvl txt w)
      as Hm.
    destruct (__format_line d (own_frame "__print" 307 :: back) lvl txt w)
      as [[line|e] w2]; cbn [snd] in Hm; subst w2; [|reflexivity].
    destruct (log_only d); reflexivity.
  - destruct (log_only d); reflexivity.
Qed.

Lemma emit_keeps_dmsgs (e : Emit) (d : Dbg) (back : list Frame) (txt : string)
  (w : World) :
  dmsgs (world_after (emit e d back txt) w) = dmsgs w.
Proof.
  destruct e; cbn [emit]; unfold any, out, err, wrn, inf, dbg, db2, log;
    match goal with
    | |- context [if ?c then _ else _] => destruct c
    end; try reflexivity; apply print_keeps_dmsgs.
Qed.

Lemma enter_keeps_dmsgs (d : Dbg) (back : list Frame) (text : string) (w : World) :
  dmsgs (world_after (__enter d back text) w) = dmsgs w.
Proof.
  unfold world_after, __enter, bind.
  destruct (trc d); [|reflexivity]. cbn [negb].
  pose proof (filter_keeps_world d (own_frame "__enter" 267 :: back) 3 w) as Hf.
  destruct (__filter d (own_frame "__enter" 267 :: back) 3 w) as [[suppress|e] w1];
    cbn [snd] in Hf; subst w1; [|reflexivity].
  destruct suppress; [reflexivity|].
  destruct (nth_error back 1) as [caller|]; [|reflexivity].
  destruct (log_only d); cbn [negb]; unfold stdout_write, emit_event, ret;
    destruct (log_fp d) as [fp|]; try reflexivity;
    match goal with
    | |- context [__format_line ?a ?b ?c ?t ?x] =>
        pose proof (format_line_keeps_world a b c t x) as Hm;
        destruct (__format_line a b c t x) as [[line|e] w2];
        cbn [snd] in Hm; subst w2; reflexivity
    end.
Qed.

Lemma leave_keeps_dmsgs (d : Dbg) (back : list Frame) (text : string) (w : World) :
  dmsgs (world_after (__leave d back text) w) = dmsgs w.
Proof.
  unfold world_after, __leave, bind.
  destruct (trc d); [|reflexivity]. cbn [negb].
  pose proof (filter_keeps_world d (own_frame "__leave" 288 :: back) 3 w) as Hf.
  destruct (__filter d (own_frame "__leave" 288 :: back) 3 w) as [[suppress|e] w1];
    cbn [snd] in Hf; subst w1; [|reflexivity].
  destruct suppress; [reflexivity|].
  destruct (nth_error back 1) as [caller|]; [|reflexivity].
  destruct (log_only d); cbn [negb]; unfold stdout_write, emit_event, ret;
    destruct (log_fp d) as [fp|]; try reflexivity;
    match goal with
    | |- context [__format_line ?a ?b ?c ?t ?x] =>
        pose proof (format_line_keeps_world a b c t x) as Hm;
        destruct (__format_line a b c t x) as [[line|e] w2];
        cbn [snd] in Hm; subst w2; reflexivity
    end.
Qed.

Lemma msgs_loop_keeps_dmsgs (d : Dbg) (back : list Frame) (lvl : option Z)
  (fnm func : option string) (ln_beg ln_end : option Z) (ffl : bool)
  (l : list Msg) (w : World) :
  dmsgs (world_after (msgs_loop d back lvl fnm func ln_beg ln_end ffl l) w) = dmsgs w.
Proof.
  revert w. induction l as [|m l IH]; intros w; [reflexivity|].
  unfold world_after in *. cbn [msgs_loop]. unfold bind.
  assert (Hone : dmsgs (snd (msgs_one d back lvl fnm func ln_beg ln_end ffl m w))
                 = dmsgs w).
  { unfold msgs_one. destruct (msgs_skip lvl fnm func ln_beg ln_end m);
      [reflexivity | apply print_keeps_dmsgs]. }
  destruct (msgs_one d back lvl fnm func ln_beg ln_end ffl m w) as [[u|e] w1];
    cbn [snd] in Hone.
  - rewrite IH. exact Hone.
  - exact Hone.
Qed.

(** [msgs] leaves the buffer as it was or empties it. *)
Lemma msgs_buffer_after (d : Dbg) (back : list Frame) (banner : option string)
  (lvl : option Z) (fnm func : option string) (ln_beg ln_end : option Z)
  (ffl : option bool) (clear : bool) (w : World) (r : outcome unit) (w' : World) :
  msgs d back banner lvl fnm func ln_beg ln_end ffl clear w = (r, w') ->
  dmsgs w' = dmsgs w \/ dmsgs w' = [].
Proof.
  unfold msgs, bind, get_dmsgs. intros Hrun.
  assert (Hloop : forall w1, dmsgs w1 = dmsgs w ->
            match msgs_loop d back lvl fnm func ln_beg ln_end
                    (match ffl with Some v => v | None => file_func_line d end)
                    (dmsgs w1) w1 with
            | (Ret _, w2) => (if clear then set_dmsgs [] else ret tt) w2
            | (Raise e, w2) => (Raise e, w2)
            end = (r, w') ->
            dmsgs w' = dmsgs w \/ dmsgs w' = []).
  { intros w1 Hw1 Htail.
    pose proof (msgs_loop_keeps_dmsgs d back lvl fnm func ln_beg ln_end
                  (match ffl with Some v => v | None => file_func_line d end)
                  (dmsgs w1) w1) as Hl.
    unfold world_after in Hl.
    destruct (msgs_loop d back lvl fnm func ln_beg ln_end
                (match ffl with Some v => v | None => file_func_line d end)
                (dmsgs w1) w1) as [[u|e] w2]; cbn [snd] in Hl.
    - destruct clear; inversion Htail; subst; cbn [dmsgs];
        [right; reflexivity | left; congruence].
    - inversion Htail; subst. left. congruence. }
  destruct banner as [[|c t]|].
  - apply (Hloop w eq_refl). exact Hrun.
  - pose proof (print_keeps_dmsgs d (own_frame "msgs" 131 :: back) OUT
                  (String c t) None w) as Hb.
    unfold world_after in Hb.
    destruct (__print d (own_frame "msgs" 131 :: back) OUT (String c t) None w)
      as [[u|e] w1]; cbn [snd] in Hb.
    + apply (Hloop w1 Hb). exact Hrun.
    + inversion Hrun; subst. left. exact Hb.
  - apply (Hloop w eq_refl). exact Hrun.
Qed.

(** Every call keeps the buffer well formed. *)
Lemma call_keeps_buffer_ok (d : Dbg) (back : list Frame) (c : Call) (w : World) :
  buffer_ok w -> buffer_ok (world_after (call d back c) w).
Proof.
  unfold buffer_ok. intros Hok.
  destruct c as [lvl txt|banner lvl f fn b e ffl cl| |em txt|text|text]; cbn [call].
  - unfold world_after, msg.
    destruct ((lvl <? ANY) || (lvl >? LOG)) eqn:Hrange; [exact Hok|].
    apply orb_false_iff in Hrange. destruct Hrange as [Hlo Hhi].
    apply Z.ltb_ge in Hlo. rewrite Z.gtb_ltb in Hhi. apply Z.ltb_ge in Hhi.
    unfold bind, level_name.
    destruct (levels_name_of levels lvl) as [name|] eqn:Hname; [|exact Hok].
    destruct back as [|caller outer]; [exact Hok|].
    cbn. apply Forall_app. split; [exact Hok|].
    constructor; [|constructor].
    split; [split; assumption | exact Hname].
  - unfold world_after.
    destruct (msgs d back banner lvl f fn b e ffl cl w) as [r w'] eqn:Hrun.
    destruct (msgs_buffer_after _ _ _ _ _ _ _ _ _ _ _ _ _ Hrun) as [Hsame|Hnil];
      cbn [snd]; [rewrite Hsame; exact Hok | rewrite Hnil; constructor].
  - constructor.
  - rewrite emit_keeps_dmsgs. exact Hok.
  - unfold enter. rewrite enter_keeps_dmsgs. exact Hok.
  - unfold leave. rewrite leave_keeps_dmsgs. exact Hok.
Qed.

Lemma session_buffer_ok (cs : list (Dbg * list Frame * Call)) (w : World) :
  buffer_ok w -> buffer_ok (session cs w).
Proof.
  revert w. induction cs as [|[[d back] c] cs IH]; intros w Hok; cbn [session].
  - exact Hok.
  - apply IH. apply call_keeps_buffer_ok. exact Hok.
Qed.

(** Whatever the run of calls, through whatever instances and from
    whatever stacks, and whichever of them raise: every message left in
    the buffer has a level within [ANY..LOG] and carries the first name
    the table has for that level. *)
Theorem session_keeps_buffer_ok (cs : list (Dbg * list Frame * Call)) (w : World) :
  buffer_ok w -> buffer_ok (session cs w).
Proof. exact (session_buffer_ok cs w). Qed.

Lemma session_keeps_buffer_ok_witness :
  buffer_ok
    (session [(class_dflt, [site_A], C_msg ANY "a");
              (setDlvl class_dflt DBG, [], C_msg ERR "no caller");
              (class_dflt, [site_A], C_msg 9 "bad level");
              (class_dflt, [site_A], C_emit E_err "x");
              (class_dflt, [site_A], C_msg LOG "z")]
       fresh_world).
Proof.
  apply session_keeps_buffer_ok. constructor.
Defined.

(** ** Draining *)

Lemma add_events_app (a b : list Event) (w : World) :
  add_events b (add_events a w) = add_events (a ++ b) w.
Proof. unfold add_events. cbn [dmsgs trace clock can_open]. rewrite app_assoc. reflexivity. Qed.

Lemma output_of_appended {A} (m : M A) (r : outcome A) (dm : list Msg)
  (evs : list Event) (w : World) :
  m w = (r, mkWorld dm (trace w ++ evs) (clock w) (can_open w)) ->
  output_of m w = evs.
Proof.
  intros Hrun. unfold output_of, world_after. rewrite Hrun. cbn [snd trace].
  clear Hrun. induction (trace w) as [|ev tr IH]; [reflexivity | exact IH].
Qed.

Lemma console_of_print_events (d : Dbg) (caller : Frame) (ws_dpth : Z)
  (name now txt : string) :
  console_of (print_events d caller ws_dpth name now txt)
  = if filter_tests d (site_of caller) || log_only d then []
    else [(if trc d then str_mul "  " ws_dpth else "") ++ txt ++ nl].
Proof.
  unfold print_events.
  destruct (filter_tests d (site_of caller)); [reflexivity|].
  destruct (log_fp d), (log_only d); reflexivity.
Qed.

(** Without a log file [__print] neither formats nor looks up the
    level: it returns normally at any level. *)
Lemma print_console_only (d : Dbg) (f2 caller : Frame) (outer : list Frame)
  (lvl : Z) (txt : string) (dpth : option Z) (w : World) :
  log_fp d = None ->
  __print d (f2 :: caller :: outer) lvl txt dpth w
  = (Ret tt,
     add_events
       (console_events d caller
          (match dpth with Some k => k - 2 | None => Z.of_nat (List.length outer) end)
          txt)
       w).
Proof.
  intros Hfp. unfold __print, bind, console_events.
  rewrite filter_at_caller, Hfp.
  destruct (filter_tests d (site_of caller)); cbn [orb].
  - rewrite add_events_nil. reflexivity.
  - rewrite frame_depth_in_method, Z.add_simpl_r.
    unfold ret, stdout_write, emit_event, add_events.
    destruct (log_only d); cbn [negb andb].
    + cbn [app]. rewrite app_nil_r. destruct w; reflexivity.
    + rewrite andb_true_r. reflexivity.
Qed.

Lemma msgs_loop_console_only (d : Dbg) (caller : Frame) (outer : list Frame)
  (lvl : option Z) (fnm func : option string) (ln_beg ln_end : option Z)
  (ffl : bool) (l : list Msg) (w : World) :
  log_fp d = None ->
  msgs_loop d (caller :: outer) lvl fnm func ln_beg ln_end ffl l w
  = (Ret tt,
     add_events
       (flat_map (replay_console d caller lvl fnm func ln_beg ln_end ffl) l) w).
Proof.
  intros Hfp. revert w.
  induction l as [|m l IH]; intros w; cbn [msgs_loop flat_map].
  - rewrite add_events_nil. reflexivity.
  - unfold bind, msgs_one, replay_console.
    destruct (msgs_skip lvl fnm func ln_beg ln_end m).
    + unfold ret. rewrite IH. reflexivity.
    + rewrite (print_console_only d _ caller outer _ _ _ w Hfp).
      rewrite IH, add_events_app. unfold replay_text. reflexivity.
Qed.

Lemma msgs_console_run (d : Dbg) (caller : Frame) (outer : list Frame)
  (banner : option string) (lvl : option Z) (fnm func : option string)
  (ln_beg ln_end : option Z) (ffl : option bool) (clear : bool) (w : World) :
  log_fp d = None ->
  msgs d (caller :: outer) banner lvl fnm func ln_beg ln_end ffl clear w
  = (Ret tt,
     mkWorld (if clear then [] else dmsgs w)
             (trace w
              ++ banner_console d caller (Z.of_nat (List.length outer)) banner
              ++ flat_map
                   (replay_console d caller lvl fnm func ln_beg ln_end
                      (match ffl with Some v => v | None => file_func_line d end))
                   (dmsgs w))
             (clock w) (can_open w)).
Proof.
  intros Hfp. unfold msgs. unfold bind at 1.
  assert (Hbanner :
            (match banner with
             | None | Some EmptyString => ret tt
             | Some text => __print d (own_frame "msgs" 131 :: caller :: outer) OUT text None
             end) w
            = (Ret tt,
               add_events (banner_console d caller (Z.of_nat (List.length outer)) banner)
                          w)).
  { unfold banner_console. destruct banner as [[|c t]|].
    - rewrite add_events_nil. reflexivity.
    - apply (print_console_only d _ caller outer OUT _ None w Hfp).
    - rewrite add_events_nil. reflexivity. }
  rewrite Hbanner.
  unfold bind at 1. unfold get_dmsgs at 1. unfold bind at 1.
  rewrite (msgs_loop_console_only d caller outer lvl fnm func ln_beg ln_end _ _ _ Hfp).
  rewrite add_events_app.
  unfold add_events. cbn [dmsgs trace clock can_open].
  destruct clear; reflexivity.
Qed.

(** What a drain does on an instance without a log file.  From a stack
    with a caller [msgs] returns normally, whatever is buffered and
    whatever the overrides, a level override outside the table
    included.  It writes to the console only: the banner, if one is
    given and not empty, then the messages that pass its five tests,
    oldest first, each like a [__print] made from the caller of [msgs]
    at the recorded depth.  The buffer is emptied iff [clr].  The
    threshold is not consulted. *)
Theorem msgs_console_only (d : Dbg) (caller : Frame) (outer : list Frame)
  (banner : option string) (lvl : option Z) (fnm func : option string)
  (ln_beg ln_end : option Z) (ffl : option bool) (clear : bool) (w : World) :
  log_fp d = None ->
  msgs d (caller :: outer) banner lvl fnm func ln_beg ln_end ffl clear w
  = (Ret tt,
     mkWorld (if clear then [] else dmsgs w)
             (trace w
              ++ banner_console d caller (Z.of_nat (List.length outer)) banner
              ++ flat_map
                   (replay_console d caller lvl fnm func ln_beg ln_end
                      (match ffl with Some v => v | None => file_func_line d end))
                   (dmsgs w))
             (clock w) (can_open w)).
Proof.
  exact (msgs_console_run d caller outer banner lvl fnm func ln_beg ln_end ffl clear w).
Qed.

Lemma msgs_console_only_witness :
  msgs (setDlvl class_dflt NONE) [site_A] (Some "held back:") (Some 8)
    None None None None None true
    (mkWorld [mkMsg "err" "x" "f" 42 "first" ERR 2;
              mkMsg "wrn" "x" "f" 44 "second" WRN 2]
             [] (clock fresh_world) (can_open fresh_world))
  = (Ret tt,
     mkWorld []
             [EvOut ("held back:" ++ nl); EvOut ("first" ++ nl); EvOut ("second" ++ nl)]
             (clock fresh_world) (can_open fresh_world)).
Proof.
  rewrite (msgs_console_only (setDlvl class_dflt NONE) site_A []).
  - reflexivity.
  - reflexivity.
Defined.

(** The console after a drain on an instance without a log file.  When
    the filter lets the caller of [msgs] through and [log_only] is off,
    a drain without banner writes to the console exactly the messages
    that pass the five tests of [msgs], in the order they were
    recorded, each indented by its recorded depth when tracing is on;
    this for any buffer and any overrides. *)
Theorem drain_console_in_order (d : Dbg) (caller : Frame) (outer : list Frame)
  (lvl : option Z) (fnm func : option string) (ln_beg ln_end : option Z)
  (ffl : option bool) (clear : bool) (w : World) :
  log_fp d = None ->
  filter_tests d (site_of caller) = false ->
  log_only d = false ->
  output_of (msgs d (caller :: outer) None lvl fnm func ln_beg ln_end ffl clear) w
  = map (fun m =>
           EvOut ((if trc d then str_mul "  " (m_dpth m - 2) else "")
                  ++ replay_text
                       (match ffl with Some v => v | None => file_func_line d end) m
                  ++ nl))
        (filter (fun m => negb (msgs_skip lvl fnm func ln_beg ln_end m)) (dmsgs w)).
Proof.
  intros Hfp Hpass Hcon.
  rewrite (output_of_appended _ _ _ _ _
             (msgs_console_run d caller outer None lvl fnm func ln_beg ln_end
                ffl clear w Hfp)).
  cbn [banner_console app].
  induction (dmsgs w) as [|m l IH]; [reflexivity|].
  cbn [flat_map filter]. rewrite IH.
  unfold replay_console, console_events. rewrite Hpass, Hcon. cbn [orb].
  destruct (msgs_skip lvl fnm func ln_beg ln_end m); reflexivity.
Qed.

Lemma drain_console_in_order_witness :
  output_of (msgs (setTrc class_dflt true) [site_A] None None None (Some "f")
               None None None true)
    (mkWorld [mkMsg "err" "x" "f" 42 "first" ERR 2;
              mkMsg "dbg" "x" "g" 50 "second" DBG 3;
              mkMsg "wrn" "x" "f" 44 "third" WRN 4]
             [] (clock fresh_world) (can_open fresh_world))
  = [EvOut ("first" ++ nl); EvOut ("    third" ++ nl)].
Proof.
  rewrite (drain_console_in_order (setTrc class_dflt true) site_A []).
  - reflexivity.
  - reflexivity.
  - reflexivity.
  - reflexivity.
Defined.

Lemma print_suppressed (d : Dbg) (f2 caller : Frame) (outer : list Frame)
  (lvl : Z) (txt : string) (dpth : option Z) (w : World) :
  filter_tests d (site_of caller) = true ->
  __print d (f2 :: caller :: outer) lvl txt dpth w = (Ret tt, w).
Proof.
  intros Hsup. unfold __print, bind. rewrite filter_at_caller, Hsup. reflexivity.
Qed.

Lemma drain_suppressed_run (d : Dbg) (caller : Frame)
  (outer : list Frame) (banner : option string) (lvl : option Z)
  (fnm func : option string) (ln_beg ln_end : option Z) (ffl : option bool)
  (clear : bool) (w : World) :
  filter_tests d (site_of caller) = true ->
  msgs d (caller :: outer) banner lvl fnm func ln_beg ln_end ffl clear w
  = (Ret tt,
     mkWorld (if clear then [] else dmsgs w) (trace w) (clock w) (can_open w)).
Proof.
  intros Hsup. unfold msgs. unfold bind at 1.
  assert (Hbanner :
            (match banner with
             | None | Some EmptyString => ret tt
             | Some text => __print d (own_frame "msgs" 131 :: caller :: outer) OUT text None
             end) w = (Ret tt, w)).
  { destruct banner as [[|c t]|]; try reflexivity.
    apply print_suppressed. exact Hsup. }
  rewrite Hbanner.
  unfold bind at 1. unfold get_dmsgs at 1. unfold bind at 1.
  assert (Hloop : forall l,
            msgs_loop d (caller :: outer) lvl fnm func ln_beg ln_end
              (match ffl with Some v => v | None => file_func_line d end) l w
            = (Ret tt, w)).
  { induction l as [|m l IH]; [reflexivity|].
    cbn [msgs_loop]. unfold bind, msgs_one.
    destruct (msgs_skip lvl fnm func ln_beg ln_end m).
    - exact IH.
    - rewrite (print_suppressed d _ caller outer _ _ _ w Hsup). exact IH. }
  rewrite Hloop.
  destruct clear; [reflexivity | destruct w; reflexivity].
Qed.

(** A drain whose own call site the live filter rejects prints
    nothing, whatever is buffered, and still empties the buffer when
    [clr] is set: the buffered messages are dropped unseen. *)
Theorem drain_suppressed_drops_messages (d : Dbg) (caller : Frame)
  (outer : list Frame) (banner : option string) (lvl : option Z)
  (fnm func : option string) (ln_beg ln_end : option Z) (ffl : option bool)
  (clear : bool) (w : World) :
  filter_tests d (site_of caller) = true ->
  msgs d (caller :: outer) banner lvl fnm func ln_beg ln_end ffl clear w
  = (Ret tt,
     mkWorld (if clear then [] else dmsgs w) (trace w) (clock w) (can_open w)).
Proof.
  exact (drain_suppressed_run d caller outer banner lvl fnm func ln_beg ln_end ffl clear w).
Qed.

Lemma drain_suppressed_drops_messages_witness :
  let w := mkWorld [mkMsg "err" "x" "f" 42 "disk full" ERR 2] []
                   (clock fresh_world) (can_open fresh_world) in
  msgs_dflt (with_fnm class_dflt "worker.py") [site_A] w = (Ret tt, fresh_world).
Proof.
  apply (drain_suppressed_drops_messages (with_fnm class_dflt "worker.py") site_A []).
  reflexivity.
Defined.

(** On an instance without a log file a drain that keeps the buffer
    ([clr=False]) can be repeated: the second drain writes the same
    console lines again and the buffer is still what it was. *)
Theorem drain_retained_repeats (d : Dbg) (caller : Frame) (outer : list Frame)
  (banner : option string) (lvl : option Z) (fnm func : option string)
  (ln_beg ln_end : option Z) (ffl : option bool) (w : World) :
  log_fp d = None ->
  let drain := msgs d (caller :: outer) banner lvl fnm func ln_beg ln_end ffl false in
  result_of (drain ;;; drain) w = Ret tt
  /\ output_of (drain ;;; drain) w = (output_of drain w ++ output_of drain w)%list
  /\ dmsgs (world_after (drain ;;; drain) w) = dmsgs w.
Proof.
  intros Hfp drain.
  pose proof (msgs_console_run d caller outer banner lvl fnm func ln_beg ln_end
                ffl false w Hfp) as Hfirst.
  fold drain in Hfirst.
  set (evs := (banner_console d caller (Z.of_nat (List.length outer)) banner
               ++ flat_map
                    (replay_console d caller lvl fnm func ln_beg ln_end
                       (match ffl with Some v => v | None => file_func_line d end))
                    (dmsgs w))%list) in *.
  set (w1 := mkWorld (dmsgs w) (trace w ++ evs) (clock w) (can_open w)) in *.
  pose proof (msgs_console_run d caller outer banner lvl fnm func ln_beg ln_end
                ffl false w1 Hfp) as Hsecond.
  fold drain in Hsecond. cbn [w1 dmsgs trace clock can_open] in Hsecond.
  fold evs in Hsecond.
  assert (Hboth : (drain ;;; drain) w
                  = (Ret tt,
                     mkWorld (dmsgs w) (trace w ++ (evs ++ evs)) (clock w) (can_open w))).
  { unfold bind. rewrite Hfirst. fold w1. rewrite Hsecond.
    rewrite <- app_assoc. reflexivity. }
  split; [unfold result_of; rewrite Hboth; reflexivity|].
  split.
  - rewrite (output_of_appended _ _ _ _ _ Hboth).
    rewrite (output_of_appended _ _ _ _ _ Hfirst). reflexivity.
  - unfold world_after. rewrite Hboth. reflexivity.
Qed.

Lemma drain_retained_repeats_witness :
  let w := mkWorld [mkMsg "err" "x" "f" 42 "disk full" ERR 2] []
                   (clock fresh_world) (can_open fresh_world) in
  let drain := msgs class_dflt [site_A] None None None None None None None false in
  output_of (drain ;;; drain) w = [EvOut ("disk full" ++ nl); EvOut ("disk full" ++ nl)].
Proof.
  intros w drain.
  destruct (drain_retained_repeats class_dflt site_A [] None None None None None None
              None w eq_refl) as [_ [Hout _]].
  exact Hout.
Defined.

Lemma levels_unnamed_outside (v : Z) :
  v < ANY \/ LOG < v -> levels_name_of levels v = None.
Proof.
  unfold ANY, LOG, levels. intros Hout. cbn [levels_name_of].
  repeat match goal with
         | |- context [?k =? v] => destruct (Z.eqb_spec k v); [lia|]
         end.
  reflexivity.
Qed.

Lemma print_unknown_level_raises (d : Dbg) (f2 caller : Frame) (outer : list Frame)
  (fp : string) (lvl : Z) (txt : string) (dpth : option Z) (w : World) :
  log_fp d = Some fp ->
  date_n_time d = true ->
  filter_tests d (site_of caller) = false ->
  levels_name_of levels lvl = None ->
  __print d (f2 :: caller :: outer) lvl txt dpth w
  = (Raise (ValueError (str lvl ++ " is not in list")), w).
Proof.
  intros Hfp Hdate Hpass Hname. unfold __print, bind.
  rewrite filter_at_caller, Hpass, Hfp.
  unfold __format_line, bind, now_strftime, level_name.
  rewrite Hdate, Hname. reflexivity.
Qed.

(** A level override above the table.  On an instance with a log file
    and the date header on, when the live filter lets the caller of
    [msgs] through, [msgs(dlvl=v)] without banner and with [v] above
    [LOG] raises ValueError at the first message that passes its
    tests, in the level-name lookup that precedes the write: nothing
    has been written and the buffer is kept, [clr] or not. *)
Theorem drain_unknown_override_raises (d : Dbg) (caller : Frame)
  (outer : list Frame) (fp : string) (v : Z) (fnm func : option string)
  (ln_beg ln_end : option Z) (ffl : option bool) (clear : bool) (w : World) :
  log_fp d = Some fp ->
  date_n_time d = true ->
  filter_tests d (site_of caller) = false ->
  LOG < v ->
  Exists (fun m => msgs_skip (Some v) fnm func ln_beg ln_end m = false) (dmsgs w) ->
  msgs d (caller :: outer) None (Some v) fnm func ln_beg ln_end ffl clear w
  = (Raise (ValueError (str v ++ " is not in list")), w).
Proof.
  intros Hfp Hdate Hpass Hout Hsome.
  assert (Hname : levels_name_of levels v = None).
  { apply levels_unnamed_outside. right. exact Hout. }
  unfold msgs. unfold bind at 1. unfold ret at 1.
  unfold bind at 1. unfold get_dmsgs at 1. unfold bind at 1.
  assert (Hloop :
            msgs_loop d (caller :: outer) (Some v) fnm func ln_beg ln_end
              (match ffl with Some b => b | None => file_func_line d end) (dmsgs w) w
            = (Raise (ValueError (str v ++ " is not in list")), w)).
  { induction Hsome as [m l Hkeep|m l Hlater IH]; cbn [msgs_loop]; unfold bind, msgs_one.
    - rewrite Hkeep.
      rewrite (print_unknown_level_raises d _ caller outer fp v _ _ w Hfp Hdate Hpass Hname).
      reflexivity.
    - destruct (msgs_skip (Some v) fnm func ln_beg ln_end m).
      + exact IH.
      + rewrite (print_unknown_level_raises d _ caller outer fp v _ _ w Hfp Hdate Hpass Hname).
        reflexivity. }
  rewrite Hloop. reflexivity.
Qed.

Lemma drain_unknown_override_raises_witness :
  let d := with_log class_dflt "app.log" "app.log" in
  let w := mkWorld [mkMsg "err" "x" "f" 42 "disk full" ERR 2] []
                   (clock fresh_world) (can_open fresh_world) in
  msgs d [site_A] None (Some 8) None None None None None true w
  = (Raise (ValueError "8 is not in list"), w).
Proof.
  intros d w.
  apply (drain_unknown_override_raises d site_A [] "app.log" 8); try reflexivity.
  constructor. reflexivity.
Defined.

(** ** [except_msg] *)

(** Called while no exception is being handled, from a module that has
    a [__file__], at a threshold of [INF] or more, [except_msg] raises
    UnboundLocalError before it writes anything: the line number it
    wants to quote is bound only in the [except:] branch of the
    [__file__] lookup. *)
Theorem except_msg_outside_handler_raises (d : Dbg) (caller : Frame)
  (outer : list Frame) (file : string) (text e : option string) (w : World) :
  f_file caller = Some file ->
  INF <= dlvl d ->
  except_msg d (caller :: outer) None text e w = (Raise UnboundLocalError, w).
Proof.
  intros Hfile Hinf. unfold except_msg. rewrite Hfile.
  assert (Hge : (dlvl d >=? INF) = true).
  { rewrite Z.geb_leb. apply Z.leb_le. exact Hinf. }
  unfold bind. rewrite Hge. reflexivity.
Qed.

Lemma except_msg_outside_handler_raises_witness :
  except_msg (setDlvl class_dflt INF) [site_A] None (Some "cannot parse") None
    fresh_world
  = (Raise UnboundLocalError, fresh_world).
Proof.
  apply (except_msg_outside_handler_raises (setDlvl class_dflt INF) site_A [] "x").
  - reflexivity.
  - unfold INF. cbn. lia.
Defined.

(** Below [INF] the string [except_msg] returns is the message, or the
    empty string for none, followed by "; " and the error when one is
    given; nothing is written. *)
Theorem except_msg_below_inf (d : Dbg) (caller : Frame) (outer : list Frame)
  (exc_info : option (string * Z)) (text e : option string) (w : World) :
  dlvl d < INF ->
  except_msg d (caller :: outer) exc_info text e w
  = (Ret ((match text with Some t => t | None => "" end)
          ++ (match e with Some s => "; " ++ s | None => "" end)),
     w).
Proof.
  intros Hlt. unfold except_msg.
  assert (Hinf : (dlvl d >=? INF) = false).
  { rewrite Z.geb_leb. apply Z.leb_gt. exact Hlt. }
  assert (Hdbg : (dlvl d >=? DBG) = false).
  { rewrite Z.geb_leb. apply Z.leb_gt. unfold DBG, INF in *. lia. }
  unfold bind. rewrite Hinf. unfold ret at 1. rewrite Hdbg. unfold ret.
  destruct e as [s0|]; [reflexivity|].
  assert (Hnil : forall t : string, t = t ++ "").
  { induction t as [|c t IH]; [reflexivity | cbn; rewrite <- IH; reflexivity]. }
  rewrite <- Hnil. reflexivity.
Qed.

Lemma except_msg_below_inf_witness :
  except_msg (setDlvl class_dflt ERR) [site_A] (Some ("io.py", 17))
    (Some "cannot parse") (Some "bad digit") fresh_world
  = (Ret "cannot parse; bad digit", fresh_world).
Proof.
  apply (except_msg_below_inf (setDlvl class_dflt ERR) site_A [] (Some ("io.py", 17))).
  unfold INF, ERR. cbn. lia.
Defined.

(** Inside a handler, at a threshold of [INF] or more, [except_msg]
    returns the message followed by the file and line of the traceback
    and the calling function, then "; " and the error when one is
    given; at [DBG] or more it also hands exactly that string to
    [__print] at level [DBG] from its caller's site. *)
Theorem except_msg_in_handler (d : Dbg) (caller : Frame) (outer : list Frame)
  (tb_file : string) (tb_lineno : Z) (text e : option string) (w : World) :
  INF <= dlvl d ->
  let said :=
    (match text with Some t => t | None => "" end)
    ++ " [" ++ tb_file ++ ", " ++ f_func caller ++ "(), ln:" ++ str tb_lineno ++ "]" in
  let said := match e with Some s => said ++ "; " ++ s | None => said end in
  except_msg d (caller :: outer) (Some (tb_file, tb_lineno)) text e w
  = (Ret said,
     add_events
       (if DBG <=? dlvl d
        then print_events d caller (Z.of_nat (List.length outer)) "dbg"
               (clock w (hdr_date_format d)) said
        else [])
       w).
Proof.
  intros Hinf said said'. unfold except_msg.
  assert (Hge3 : (dlvl d >=? INF) = true).
  { rewrite Z.geb_leb. apply Z.leb_le. exact Hinf. }
  unfold bind at 1. rewrite Hge3. unfold ret at 1.
  fold said. fold said'. rewrite Z.geb_leb.
  destruct (DBG <=? dlvl d).
  - unfold bind.
    rewrite (print_closed_form d _ caller outer DBG "dbg" said' None w eq_refl).
    reflexivity.
  - unfold bind, ret. rewrite add_events_nil. reflexivity.
Qed.

Lemma except_msg_in_handler_witness :
  except_msg (setDlvl class_dflt DBG) [site_A] (Some ("io.py", 17))
    (Some "cannot parse") (Some "bad digit") fresh_world
  = (Ret "cannot parse [io.py, f(), ln:17]; bad digit",
     add_events [EvOut ("cannot parse [io.py, f(), ln:17]; bad digit" ++ nl)]
                fresh_world).
Proof.
  apply (except_msg_in_handler (setDlvl class_dflt DBG) site_A [] "io.py" 17).
  vm_compute. discriminate.
Defined.

(** ** [msgsx] *)

(** [msgsx] records and drains from its own frame, so the live filter
    judges the site [dbg.py:msgsx], not the user's.  Under a file-name
    filter that names any other file it writes nothing, whatever is
    buffered and whatever message it is given, empties the buffer and
    reaches [sys.exit(1)]. *)
Theorem msgsx_silent_under_file_filter (d : Dbg) (back : list Frame)
  (want : string) (text : option string) (w : World) :
  fnm d = Some want ->
  want <> "dbg.py" ->
  msgsx d back text w
  = (Ret 1, mkWorld [] (trace w) (clock w) (can_open w)).
Proof.
  intros Hfnm Hother.
  assert (Hsup : filter_tests d (site_of (own_frame "msgsx" 122)) = true).
  { unfold filter_tests. rewrite Hfnm. cbn [site_of s_fnm own_frame frame_fnm f_file].
    destruct (String.eqb_spec "dbg.py" want) as [Heq|Hne]; [|reflexivity].
    exfalso. apply Hother. symmetry. exact Heq. }
  unfold msgsx. unfold bind at 1.
  assert (Hrec : exists l,
            (match text with
             | None | Some EmptyString => ret tt
             | Some t => msg d (own_frame "msgsx" 121 :: back) ERR t
             end) w = (Ret tt, mkWorld l (trace w) (clock w) (can_open w))).
  { destruct text as [[|c t]|].
    - exists (dmsgs w). destruct w; reflexivity.
    - eexists.
      apply (msg_appends d (own_frame "msgsx" 121) back ERR "err" (String c t) w).
      + unfold ANY, ERR, LOG. lia.
      + reflexivity.
    - exists (dmsgs w). destruct w; reflexivity. }
  destruct Hrec as [l Hrec]. rewrite Hrec.
  unfold bind at 1. unfold msgs_dflt.
  rewrite (drain_suppressed_run d (own_frame "msgsx" 122) back None None None None
             None None None true _ Hsup).
  reflexivity.
Qed.

Lemma msgsx_silent_under_file_filter_witness :
  msgsx (with_fnm class_dflt "worker.py") [mkFrame (Some "worker.py") "load" 30]
    (Some "disk full") fresh_world
  = (Ret 1, fresh_world).
Proof.
  apply (msgsx_silent_under_file_filter (with_fnm class_dflt "worker.py") _ "worker.py").
  - reflexivity.
  - intros Heq. discriminate Heq.
Defined.

(** On an instance without a log file, with the filter letting
    [dbg.py:msgsx] through and [log_only], tracing and
    [file_func_line] off, [msgsx(text)] with a text that is not empty
    prints what was buffered, oldest first, then its own text, and
    reaches [sys.exit(1)] with the buffer empty. *)
Theorem msgsx_prints_then_exits (d : Dbg) (back : list Frame) (c : ascii)
  (t : string) (w : World) :
  log_fp d = None ->
  filter_tests d (site_of (own_frame "msgsx" 122)) = false ->
  log_only d = false ->
  trc d = false ->
  file_func_line d = false ->
  msgsx d back (Some (String c t)) w
  = (Ret 1,
     mkWorld []
             (trace w
              ++ map (fun m => EvOut (m_txt m ++ nl)) (dmsgs w)
              ++ [EvOut (String c t ++ nl)])
             (clock w) (can_open w)).
Proof.
  intros Hfp Hpass Hcon Htrc Hffl.
  set (mine := mkMsg "err" "dbg.py" "msgsx" 121 (String c t) ERR
                     (Z.of_nat (List.length back) + 2)).
  set (w1 := mkWorld (dmsgs w ++ [mine]) (trace w) (clock w) (can_open w)).
  assert (Hrec : msg d (own_frame "msgsx" 121 :: back) ERR (String c t) w = (Ret tt, w1)).
  { apply (msg_appends d (own_frame "msgsx" 121) back ERR "err" (String c t) w).
    - unfold ANY, ERR, LOG. lia.
    - reflexivity. }
  pose proof (msgs_console_run d (own_frame "msgsx" 122) back None None None None
                None None None true w1 Hfp) as Hdrain.
  unfold msgsx, bind. rewrite Hrec. unfold msgs_dflt. rewrite Hdrain.
  cbn [w1 dmsgs trace clock can_open banner_console app]. rewrite Hffl.
  assert (Hlines : forall l,
            flat_map (replay_console d (own_frame "msgsx" 122)
                        None None None None None false) l
            = map (fun m => EvOut (m_txt m ++ nl)) l).
  { induction l as [|m l IH]; [reflexivity|].
    cbn [flat_map map]. rewrite IH.
    unfold replay_console, console_events. cbn [msgs_skip replay_text].
    rewrite Hpass, Hcon, Htrc. reflexivity. }
  rewrite Hlines, map_app. reflexivity.
Qed.

Lemma msgsx_prints_then_exits_witness :
  let w := mkWorld [mkMsg "wrn" "x" "f" 40 "retrying" WRN 2] []
                   (clock fresh_world) (can_open fresh_world) in
  msgsx class_dflt [site_A] (Some "disk full") w
  = (Ret 1,
     mkWorld [] [EvOut ("retrying" ++ nl); EvOut ("disk full" ++ nl)]
             (clock fresh_world) (can_open fresh_world)).
Proof.
  intros w.
  exact (msgsx_prints_then_exits class_dflt [site_A] "d" "isk full" w
           eq_refl eq_refl eq_refl eq_refl eq_refl).
Defined.

(** ** Level names *)

(** [setLvl] then [getLvl].  For a key of [levels], [setLvl] succeeds
    and [getLvl] gives the same name back, except that "any" reads back
    as "none", the first of the two names bound to -1.  For any other
    name [setLvl] raises KeyError; it does not turn it into the
    ValueError of [__init__]. *)
Theorem setLvl_getLvl (d : Dbg) (name : string) (w : World) :
  (recognized name ->
   exists d',
     setLvl d name = inr d'
     /\ getLvl d' w = (Ret (if String.eqb name "any" then "none" else name), w))
  /\ (~ recognized name -> setLvl d name = inl (KeyError name)).
Proof.
  split.
  - unfold recognized. cbn [levels map fst In].
    intros Hin.
    repeat (destruct Hin as [Hin|Hin]; [subst name; eexists; split; reflexivity|]).
    contradiction.
  - intros Hnot. unfold setLvl.
    apply levels_get_none in Hnot. rewrite Hnot. reflexivity.
Qed.

Lemma setLvl_getLvl_witness :
  (exists d', setLvl class_dflt "any" = inr d'
              /\ getLvl d' fresh_world = (Ret "none", fresh_world))
  /\ setLvl class_dflt "dbg2" = inl (KeyError "dbg2").
Proof.
  destruct (setLvl_getLvl class_dflt "any" fresh_world) as [Hok _].
  destruct (setLvl_getLvl class_dflt "dbg2" fresh_world) as [_ Hbad].
  split.
  - apply Hok. unfold recognized. cbn. tauto.
  - apply Hbad. unfold recognized. cbn.
    intros Hin.
    repeat (destruct Hin as [Hin|Hin]; [discriminate Hin|]).
    exact Hin.
Defined.

(** [getLvl] after [setDlvl]: [setDlvl] stores any integer unchecked,
    and [getLvl] raises ValueError exactly when that integer is outside
    [ANY..LOG]. *)
Theorem getLvl_after_setDlvl (d : Dbg) (v : Z) (w : World) :
  (exists what, getLvl (setDlvl d v) w = (Raise (ValueError what), w))
  <-> (v < ANY \/ LOG < v).
Proof.
  unfold getLvl, level_name. cbn [setDlvl dlvl]. split.
  - intros [what Hraise].
    destruct (Z.lt_ge_cases v ANY) as [Hlo|Hlo]; [left; exact Hlo|].
    destruct (Z.lt_ge_cases LOG v) as [Hhi|Hhi]; [right; exact Hhi|].
    destruct (levels_named_in_range v (conj Hlo Hhi)) as [name Hname].
    rewrite Hname in Hraise. discriminate Hraise.
  - intros Hout. rewrite (levels_unnamed_outside v Hout). eexists. reflexivity.
Qed.

Lemma getLvl_after_setDlvl_witness :
  exists what, getLvl (setDlvl class_dflt 42) fresh_world
               = (Raise (ValueError what), fresh_world).
Proof.
  apply (proj2 (getLvl_after_setDlvl class_dflt 42 fresh_world)).
  right. unfold LOG. lia.
Defined.

(** ** Console suppression without a log file *)

(** The setter [setLogOnly] makes the configuration that [__init__]
    refuses.  On an instance with no log file, after [setLogOnly(True)]
    every level-gated method and both trace helpers, called from a
    stack with a caller, return normally and leave the store as it
    was: every message is lost on every sink, and no error tells. *)
Theorem log_only_setter_silences_all (d : Dbg) (caller : Frame)
  (outer : list Frame) (w : World) :
  log_fp d = None ->
  (forall e txt, emit e (setLogOnly d true) (caller :: outer) txt w = (Ret tt, w))
  /\ (forall text, enter (setLogOnly d true) (caller :: outer) text w = (Ret tt, w))
  /\ (forall text, leave (setLogOnly d true) (caller :: outer) text w = (Ret tt, w)).
Proof.
  intros Hfp.
  assert (Hprint : forall f2 lvl txt dpth,
            __print (setLogOnly d true) (f2 :: caller :: outer) lvl txt dpth w
            = (Ret tt, w)).
  { intros f2 lvl txt dpth. unfold __print, bind.
    rewrite filter_at_caller.
    destruct (filter_tests (setLogOnly d true) (site_of caller)); [reflexivity|].
    cbn [setLogOnly log_fp log_only]. rewrite Hfp. reflexivity. }
  split; [|split].
  - intros e txt.
    destruct e; cbn [emit]; unfold any, out, err, wrn, inf, dbg, db2, log;
      match goal with
      | |- context [if ?c then _ else _] => destruct c
      end; try reflexivity; apply Hprint.
  - intros text. unfold enter, __enter, bind.
    destruct (trc (setLogOnly d true)); [|reflexivity]. cbn [negb]. cbv beta.
    rewrite filter_at_caller.
    destruct (filter_tests (setLogOnly d true) (site_of caller)); [reflexivity|].
    cbn [nth_error setLogOnly log_fp log_only negb]. rewrite Hfp. reflexivity.
  - intros text. unfold leave, __leave, bind.
    destruct (trc (setLogOnly d true)); [|reflexivity]. cbn [negb]. cbv beta.
    rewrite filter_at_caller.
    destruct (filter_tests (setLogOnly d true) (site_of caller)); [reflexivity|].
    cbn [nth_error setLogOnly log_fp log_only negb]. rewrite Hfp. reflexivity.
Qed.

Lemma log_only_setter_silences_all_witness :
  emit E_out (setLogOnly (setDlvl class_dflt LOG) true) [site_A] "result: 42" fresh_world
  = (Ret tt, fresh_world).
Proof.
  destruct (log_only_setter_silences_all (setDlvl class_dflt LOG) site_A [] fresh_world
              eq_refl) as [Hemit _].
  apply Hemit.
Defined.

(** ** Construction, continued *)

(** A ValueError from [__init__] comes before any file is opened: the
    store is left as it was. *)
Theorem init_value_error_opens_nothing (a : InitArgs) (w : World) (what : string) :
  result_of (__init__ a) w = Raise (ValueError what) ->
  world_after (__init__ a) w = w.
Proof.
  unfold result_of, world_after, __init__.
  destruct (levels_get levels (a_lvl a)) as [v|]; [|reflexivity].
  destruct a as [lvl t file only fo dt fl hf ffl fname fn lb le].
  cbn [a_lvl a_trc a_log_file a_log_only a_force_out a_date_n_time
       a_file_n_line a_hdr_date_format a_file_func_line a_file_name
       a_func_name a_line_begin a_line_end].
  destruct file as [file|].
  - unfold bind, open_append.
    destruct (has_nul file); [reflexivity|].
    destruct (can_open w file); destruct only as [[|]|]; cbn; intros H; discriminate H.
  - destruct only as [[|]|]; cbn; intros H; try discriminate H; reflexivity.
Qed.

Lemma init_value_error_opens_nothing_witness :
  world_after (__init__ (mkInitArgs "dbg2" false (Some "app.log") None None None None
                                    None None None None None None))
    fresh_world
  = fresh_world.
Proof.
  apply (init_value_error_opens_nothing _ fresh_world
           "Debug level of 'dbg2' not recognized.").
  reflexivity.
Defined.

Lemma when_given_keeps {A B} (p : Dbg -> B) (f : Dbg -> A -> Dbg) (v : option A)
  (d : Dbg) :
  (forall d' a, p (f d' a) = p d') -> p (when_given v f d) = p d.
Proof. intros Hkeep. destruct v as [a|]; [apply Hkeep | reflexivity]. Qed.

Lemma when_given_sets {A B} (p : Dbg -> B) (f : Dbg -> A -> Dbg) (g : A -> B)
  (v : option A) (d : Dbg) :
  (forall d' a, p (f d' a) = g a) ->
  p (when_given v f d) = match v with Some a => g a | None => p d end.
Proof. intros Hset. destruct v as [a|]; [apply Hset | reflexivity]. Qed.

(** Read the field [p] through the chain of optional assignments. *)
Ltac read_field p :=
  repeat first
    [ rewrite (when_given_keeps p) by (intros; reflexivity)
    | rewrite (when_given_sets p _ (fun a => a)) by (intros; reflexivity)
    | rewrite (when_given_sets p _ (fun a => Some a)) by (intros; reflexivity) ].

(** What [__init__] returns.  The instance has the level bound to the
    name, the trace flag as given, the log file opened once when one is
    named, and for every other keyword the value given or else the
    class default ([date_n_time] and [file_n_line] default to on,
    [force_out] to on, [log_only] to off).  An instance it returns with
    [log_only] set always has a log file. *)
Theorem init_result (a : InitArgs) (w w' : World) (d : Dbg) :
  __init__ a w = (Ret d, w') ->
  levels_get levels (a_lvl a) = Some (dlvl d)
  /\ trc d = a_trc a
  /\ log_fp d = a_log_file a
  /\ log_file d = a_log_file a
  /\ trace w' = (trace w ++ match a_log_file a with
                            | Some path => [EvOpen path]
                            | None => []
                            end)%list
  /\ dmsgs w' = dmsgs w
  /\ log_only d = match a_log_only a with Some v => v | None => false end
  /\ force_out d = match a_force_out a with Some v => v | None => true end
  /\ date_n_time d = match a_date_n_time a with Some v => v | None => true end
  /\ file_n_line d = match a_file_n_line a with Some v => v | None => true end
  /\ hdr_date_format d
     = match a_hdr_date_format a with Some v => v | None => "%Y-%m-%d %H:%M:%S.%f" end
  /\ file_func_line d = match a_file_func_line a with Some v => v | None => false end
  /\ fnm d = a_file_name a
  /\ func d = a_func_name a
  /\ ln_beg d = a_line_begin a
  /\ ln_end d = a_line_end a
  /\ (log_only d = true -> log_fp d <> None).
Proof.
  unfold __init__.
  destruct (levels_get levels (a_lvl a)) as [v|]; [|intros H; discriminate H].
  destruct a as [lvl t file only fo dt fl hf ffl fname fn lb le].
  cbn [a_lvl a_trc a_log_file a_log_only a_force_out a_date_n_time
       a_file_n_line a_hdr_date_format a_file_func_line a_file_name
       a_func_name a_line_begin a_line_end].
  unfold bind, open_append.
  destruct file as [file|];
    [destruct (has_nul file); [intros Hrun; discriminate Hrun|];
     destruct (can_open w file)|];
    destruct only as [[|]|]; unfold ret, raise;
    intros Hrun; try discriminate Hrun;
    injection Hrun as Hd Hw; subst d w';
    cbn [trace dmsgs]; rewrite ?app_nil_r;
    (split; [read_field dlvl; reflexivity|]);
    (split; [read_field trc; reflexivity|]);
    (split; [read_field log_fp; reflexivity|]);
    (split; [read_field log_file; reflexivity|]);
    (split; [reflexivity|]);
    (split; [reflexivity|]);
    (split; [read_field log_only; reflexivity|]);
    (split; [read_field force_out; destruct fo; reflexivity|]);
    (split; [read_field date_n_time; destruct dt; reflexivity|]);
    (split; [read_field file_n_line; destruct fl; reflexivity|]);
    (split; [read_field hdr_date_format; destruct hf; reflexivity|]);
    (split; [read_field file_func_line; destruct ffl; reflexivity|]);
    (split; [read_field fnm; destruct fname; reflexivity|]);
    (split; [read_field func; destruct fn; reflexivity|]);
    (split; [read_field ln_beg; destruct lb; reflexivity|]);
    (split; [read_field ln_end; destruct le; reflexivity|]);
    read_field log_only; read_field log_fp; cbn; intros H; discriminate.
Qed.

Lemma init_result_witness :
  exists d w',
    __init__ scenario_A_log_args fresh_world = (Ret d, w')
    /\ date_n_time d = false /\ force_out d = true
    /\ trace w' = [EvOpen "app.log"].
Proof.
  destruct (__init__ scenario_A_log_args fresh_world) as [[d|e] w'] eqn:Hrun;
    [|vm_compute in Hrun; discriminate Hrun].
  exists d, w'. split; [reflexivity|].
  destruct (init_result scenario_A_log_args fresh_world w' d Hrun)
    as [_ [_ [_ [_ [Htr [_ [_ [Hfo [Hdt _]]]]]]]]].
  split; [exact Hdt|]. split; [exact Hfo | exact Htr].
Defined.

(** ** Emit, exactly *)

Lemma emit_denied (e : Emit) (d : Dbg) (back : list Frame) (txt : string) (w : World) :
  (emit_level e <=? dlvl d) = false -> emit e d back txt w = (Ret tt, w).
Proof.
  intros Hgt.
  assert (Hge : (dlvl d >=? emit_level e) = false) by (rewrite Z.geb_leb; exact Hgt).
  destruct e; cbn [emit emit_level] in *;
    unfold any, out, err, wrn, inf, dbg, db2, log;
    rewrite Hge; reflexivity.
Qed.

(** What a level-gated method does on an instance without a log
    file.  Called from a stack with a caller it returns normally and
    writes at most one event: the text, behind its trace indentation,
    goes to the console iff the threshold is at least the level, the
    filter lets the caller through and [log_only] is off.  At the
    threshold [NONE] this still lets [any] through. *)
Theorem emit_console_exact (e : Emit) (d : Dbg) (caller : Frame) (outer : list Frame)
  (txt : string) (w : World) :
  log_fp d = None ->
  emit e d (caller :: outer) txt w
  = (Ret tt,
     add_events
       (if (emit_level e <=? dlvl d)
           && negb (filter_tests d (site_of caller)) && negb (log_only d)
        then [EvOut ((if trc d then indent (Z.of_nat (List.length outer)) else "")
                     ++ txt ++ nl)]
        else [])
       w).
Proof.
  intros Hfp.
  destruct (emit_level e <=? dlvl d) eqn:Hle; cbn [andb].
  - apply Z.leb_le in Hle.
    destruct (emit_allowed_prints e d (caller :: outer) txt Hle) as [f Hemit].
    rewrite Hemit, (print_console_only d f caller outer _ txt None w Hfp).
    unfold console_events, indent.
    destruct (filter_tests d (site_of caller)), (log_only d); reflexivity.
  - rewrite add_events_nil. apply emit_denied. exact Hle.
Qed.

Lemma emit_console_exact_witness :
  emit E_any (setDlvl class_dflt NONE) [site_A] "always" fresh_world
  = (Ret tt, add_events [EvOut ("always" ++ nl)] fresh_world).
Proof.
  exact (emit_console_exact E_any (setDlvl class_dflt NONE) site_A [] "always"
           fresh_world eq_refl).
Defined.

(** ** Trace lines *)

Lemma enter_run (d : Dbg) (caller : Frame) (outer : list Frame) (text : string)
  (w : World) :
  trc d = true ->
  filter_tests d (site_of caller) = false ->
  enter d (caller :: outer) text w
  = (Ret tt,
     add_events
       ((if log_only d then []
         else [EvOut (indent (Z.of_nat (List.length outer) - 1)
                      ++ (f_func caller ++ "(" ++ text ++ ") {") ++ nl)])
        ++ match log_fp d with
           | Some fp =>
               [EvLog fp (formatted d caller "dbg" (clock w (hdr_date_format d))
                            (f_func caller ++ "(" ++ text ++ ") {"))]
           | None => []
           end)
       w).
Proof.
  intros Htrc Hpass. unfold enter, __enter, bind.
  rewrite Htrc. cbn [negb]. cbv beta.
  rewrite filter_at_caller, Hpass. cbn [nth_error].
  rewrite frame_depth_in_method.
  replace (Z.of_nat (List.length outer) + 3 - 4)
    with (Z.of_nat (List.length outer) - 1) by lia.
  unfold indent, stdout_write, fp_write, emit_event, add_events, ret.
  destruct (log_only d); cbn [negb dmsgs trace clock can_open].
  - destruct (log_fp d) as [fp|].
    + rewrite (format_line_formatted d _ _ caller outer DBG "dbg" _ w eq_refl).
      reflexivity.
    + cbn [app]. rewrite app_nil_r. destruct w; reflexivity.
  - destruct (log_fp d) as [fp|].
    + rewrite (format_line_formatted d _ _ caller outer DBG "dbg" _ _ eq_refl).
      cbn [dmsgs trace clock can_open app]. rewrite <- app_assoc. reflexivity.
    + reflexivity.
Qed.

Lemma leave_run (d : Dbg) (caller : Frame) (outer : list Frame) (text : string)
  (w : World) :
  trc d = true ->
  filter_tests d (site_of caller) = false ->
  leave d (caller :: outer) text w
  = (Ret tt,
     add_events
       ((if log_only d then []
         else [EvOut (indent (Z.of_nat (List.length outer) - 1)
                      ++ ("} # " ++ f_func caller ++ ":" ++ str (f_lineno caller)
                          ++ " " ++ text) ++ nl)])
        ++ match log_fp d with
           | Some fp =>
               [EvLog fp (formatted d caller "dbg" (clock w (hdr_date_format d))
                            ("} # " ++ f_func caller ++ ":" ++ str (f_lineno caller)
                             ++ " " ++ text))]
           | None => []
           end)
       w).
Proof.
  intros Htrc Hpass. unfold leave, __leave, bind.
  rewrite Htrc. cbn [negb]. cbv beta.
  rewrite filter_at_caller, Hpass. cbn [nth_error].
  rewrite frame_depth_in_method.
  replace (Z.of_nat (List.length outer) + 3 - 4)
    with (Z.of_nat (List.length outer) - 1) by lia.
  unfold indent, stdout_write, fp_write, emit_event, add_events, ret.
  destruct (log_only d); cbn [negb dmsgs trace clock can_open].
  - destruct (log_fp d) as [fp|].
    + rewrite (format_line_formatted d _ _ caller outer DBG "dbg" _ w eq_refl).
      reflexivity.
    + cbn [app]. rewrite app_nil_r. destruct w; reflexivity.
  - destruct (log_fp d) as [fp|].
    + rewrite (format_line_formatted d _ _ caller outer DBG "dbg" _ _ eq_refl).
      cbn [dmsgs trace clock can_open app]. rewrite <- app_assoc. reflexivity.
    + reflexivity.
Qed.

(** A traced block on the console.  With tracing on and the console
    not suppressed, [enter], a level-gated method the threshold lets
    through, and [leave], called at three lines of one activation that
    the filter lets through, write three lines: the opening line
    "func(text) {" and the closing line "} # func:line text" at the
    same indentation, one level per frame outside the caller beyond the
    first, and the message one level deeper than the braces whenever
    the caller is not the script body. *)
Theorem traced_block_console (d : Dbg) (e : Emit) (c1 c2 c3 : Frame)
  (outer : list Frame) (a txt b : string) (w : World) :
  trc d = true ->
  log_only d = false ->
  emit_level e <= dlvl d ->
  filter_tests d (site_of c1) = false ->
  filter_tests d (site_of c2) = false ->
  filter_tests d (site_of c3) = false ->
  let n := Z.of_nat (List.length outer) in
  console_of
    (output_of (enter d (c1 :: outer) a ;;;
                emit e d (c2 :: outer) txt ;;;
                leave d (c3 :: outer) b) w)
  = [indent (n - 1) ++ (f_func c1 ++ "(" ++ a ++ ") {") ++ nl;
     indent n ++ txt ++ nl;
     indent (n - 1)
     ++ ("} # " ++ f_func c3 ++ ":" ++ str (f_lineno c3) ++ " " ++ b) ++ nl].
Proof.
  intros Htrc Hcon Hle Hp1 Hp2 Hp3 n.
  destruct (emit_levels_named e) as [name Hname].
  destruct (emit_allowed_prints e d (c2 :: outer) txt Hle) as [f Hemit].
  pose proof (enter_run d c1 outer a w Htrc Hp1) as H1.
  set (ev1 := ((if log_only d then [] else _) ++ _)%list) in H1.
  pose proof (print_closed_form d f c2 outer _ name txt None (add_events ev1 w) Hname)
    as H2.
  rewrite <- Hemit in H2.
  set (ev2 := print_events _ _ _ _ _ _) in H2.
  pose proof (leave_run d c3 outer b (add_events ev2 (add_events ev1 w)) Htrc Hp3) as H3.
  set (ev3 := ((if log_only d then [] else _) ++ _)%list) in H3.
  assert (Hrun : (enter d (c1 :: outer) a ;;;
                  emit e d (c2 :: outer) txt ;;;
                  leave d (c3 :: outer) b) w
                 = (Ret tt, add_events (ev1 ++ ev2 ++ ev3) w)).
  { unfold bind. rewrite H1, H2, H3, !add_events_app. reflexivity. }
  rewrite (output_of_add_events _ _ _ w Hrun).
  rewrite !console_of_app. unfold ev1, ev2, ev3.
  rewrite console_of_print_events, Hp2, Hcon, Htrc. cbn [orb].
  destruct (log_fp d); reflexivity.
Qed.

Lemma traced_block_console_witness :
  let d := setTrc (setDlvl class_dflt DBG) true in
  let outer := [mkFrame (Some "x") "main" 90; mkFrame (Some "x") "<module>" 120] in
  console_of
    (output_of (enter d (mkFrame (Some "x") "f" 40 :: outer) "n=3" ;;;
                emit E_inf d (mkFrame (Some "x") "f" 42 :: outer) "working" ;;;
                leave d (mkFrame (Some "x") "f" 44 :: outer) "done") fresh_world)
  = ["  f(n=3) {" ++ nl; "    working" ++ nl; "  } # f:44 done" ++ nl].
Proof.
  intros d outer.
  rewrite (traced_block_console d E_inf _ _ _ outer).
  - reflexivity.
  - reflexivity.
  - reflexivity.
  - vm_compute. discriminate.
  - reflexivity.
  - reflexivity.
  - reflexivity.
Defined.


(** ** The function allow-list *)

Lemma split_not_nil (sep : ascii) (s : string) : split sep s <> [].
Proof.
  destruct s as [|c rest]; cbn [split]; [discriminate|].
  destruct (Ascii.eqb c sep); [discriminate|].
  destruct (split sep rest); discriminate.
Qed.

Lemma concat_split (sep : ascii) (s : string) :
  String.concat (String sep "") (split sep s) = s.
Proof.
  induction s as [|c rest IH]; [reflexivity|].
  cbn [split].
  destruct (Ascii.eqb_spec c sep) as [Heq|Hne].
  - subst c. pose proof (split_not_nil sep rest) as Hnil.
    destruct (split sep rest) as [|hd tl]; [contradiction|].
    cbn [String.concat] in *. rewrite IH. reflexivity.
  - pose proof (split_not_nil sep rest) as Hnil.
    destruct (split sep rest) as [|hd tl]; [contradiction|].
    destruct tl as [|hd' tl']; cbn [String.concat] in *; rewrite <- IH; reflexivity.
Qed.

Lemma split_pieces_no_sep (sep : ascii) (s : string) :
  Forall (fun piece => ~ In sep (list_ascii_of_string piece)) (split sep s).
Proof.
  induction s as [|c rest IH]; cbn [split].
  - constructor; [intros H; exact H | constructor].
  - destruct (Ascii.eqb_spec c sep) as [Heq|Hne].
    + constructor; [intros H; exact H | exact IH].
    + destruct (split sep rest) as [|hd tl].
      * constructor; [|constructor].
        cbn. intros [H|H]; [exact (Hne H) | exact H].
      * inversion IH as [|x l Hhd Htl]; subst.
        constructor; [|exact Htl].
        cbn. intros [H|H]; [exact (Hne H) | exact (Hhd H)].
Qed.

(** The function filter is cut at every comma and nowhere else, with
    nothing trimmed: joining the pieces with commas gives the filter
    back and no piece holds a comma.  When the file filter does not
    reject the site, the site passes iff its function name is one of
    the pieces; the line range is not consulted. *)
Theorem func_filter_allow_list (d : Dbg) (s : Site) (names : string) :
  func d = Some names ->
  match fnm d with Some want => s_fnm s = want | None => True end ->
  (filter_tests d s = false <-> In (s_func s) (split "," names))
  /\ String.concat "," (split "," names) = names
  /\ Forall (fun piece => ~ In ","%char (list_ascii_of_string piece))
            (split "," names).
Proof.
  intros Hfunc Hfile. split; [|split].
  - rewrite (filter_tests_with_func d s names Hfunc).
    assert (Hfnm : match fnm d with
                   | Some want => negb (String.eqb (s_fnm s) want)
                   | None => false
                   end = false).
    { destruct (fnm d) as [want|]; [|reflexivity].
      subst want. rewrite String.eqb_refl. reflexivity. }
    rewrite Hfnm. cbn [orb]. rewrite negb_false_iff, existsb_exists.
    split.
    + intros [piece [Hin Heq]]. apply String.eqb_eq in Heq. subst piece. exact Hin.
    + intros Hin. exists (s_func s). split; [exact Hin | apply String.eqb_refl].
  - apply concat_split.
  - apply split_pieces_no_sep.
Qed.

Lemma func_filter_allow_list_witness :
  filter_tests (with_func class_dflt "f, g") (mkSite "x" "g" 7) <> false
  /\ filter_tests (with_func class_dflt "") (mkSite "x" "g" 7) <> false.
Proof.
  destruct (func_filter_allow_list (with_func class_dflt "f, g") (mkSite "x" "g" 7)
              "f, g" eq_refl I) as [Hspaced _].
  destruct (func_filter_allow_list (with_func class_dflt "") (mkSite "x" "g" 7)
              "" eq_refl I) as [Hempty _].
  split.
  - intros Hpass. apply Hspaced in Hpass. cbn in Hpass.
    destruct Hpass as [H|[H|[]]]; discriminate H.
  - intros Hpass. apply Hempty in Hpass. cbn in Hpass.
    destruct Hpass as [H|[]]; discriminate H.
Defined.

(** ** The live filter without a function filter *)

(** With no function filter set, the live filter suppresses a site
    exactly when the file filter is set and differs from the site's
    file, or the line is below the lower bound that is set, or above
    the upper bound that is set. *)
Theorem filter_without_func_filter (d : Dbg) (s : Site) :
  func d = None ->
  (filter_tests d s = true
   <-> ((exists want, fnm d = Some want /\ s_fnm s <> want)
        \/ (exists b, ln_beg d = Some b /\ s_ln s < b)
        \/ (exists e, ln_end d = Some e /\ e < s_ln s))).
Proof.
  intros Hfunc. unfold filter_tests. rewrite Hfunc.
  assert (Hfile : (match fnm d with
                   | Some want => negb (String.eqb (s_fnm s) want)
                   | None => false
                   end) = true
                  <-> exists want, fnm d = Some want /\ s_fnm s <> want).
  { destruct (fnm d) as [want|].
    - destruct (String.eqb_spec (s_fnm s) want) as [Heq|Hne]; cbn [negb].
      + split; [discriminate|].
        intros [want' [Hw Hd]]. injection Hw as <-. contradiction.
      + split; [|reflexivity]. intros _. exists want. split; [reflexivity | exact Hne].
    - split; [discriminate|]. intros [want [Hw _]]. discriminate Hw. }
  assert (Hbeg : (match ln_beg d with Some b => s_ln s <? b | None => false end) = true
                 <-> exists b, ln_beg d = Some b /\ s_ln s < b).
  { destruct (ln_beg d) as [b|].
    - rewrite Z.ltb_lt. split.
      + intros Hlt. exists b. split; [reflexivity | exact Hlt].
      + intros [b' [Hb Hlt]]. injection Hb as <-. exact Hlt.
    - split; [discriminate|]. intros [b [Hb _]]. discriminate Hb. }
  assert (Hend : (match ln_end d with Some e => s_ln s >? e | None => false end) = true
                 <-> exists e, ln_end d = Some e /\ e < s_ln s).
  { destruct (ln_end d) as [e|].
    - rewrite Z.gtb_ltb, Z.ltb_lt. split.
      + intros Hlt. exists e. split; [reflexivity | exact Hlt].
      + intros [e' [He Hlt]]. injection He as <-. exact Hlt.
    - split; [discriminate|]. intros [e [He _]]. discriminate He. }
  rewrite <- Hfile, <- Hbeg, <- Hend.
  destruct (match fnm d with
            | Some want => negb (String.eqb (s_fnm s) want)
            | None => false
            end);
    destruct (match ln_beg d with Some b => s_ln s <? b | None => false end);
    destruct (match ln_end d with Some e => s_ln s >? e | None => false end);
    cbn; intuition discriminate.
Qed.

Lemma filter_without_func_filter_witness :
  filter_tests (with_ln_end (with_ln_beg class_dflt 10) 20) (mkSite "x" "f" 21) = true.
Proof.
  apply (filter_without_func_filter (with_ln_end (with_ln_beg class_dflt 10) 20)
           (mkSite "x" "f" 21) eq_refl).
  right. right. exists 20. split; [reflexivity | cbn; lia].
Defined.

End Dbg.
